(** * seqview: lazy map and filter views over bidirectional sequences

    A shallow embedding of [seqview.py] and the properties of its views.

    Python objects are modelled as follows.
    - Elements of sequences are values of an arbitrary type [A].
    - An index is a native [int] or an instance of the [Index] class that a
      view's [__init__] creates; such an instance records the identity of
      its class, and a filter index also what its methods close over.
    - A call may return, raise an exception, or (in the model only) run out
      of fuel: the [while] loops of the module have no static bound.
    - A generator is the trace of its complete run; what PEP 479 changes
      for a [StopIteration] that leaves the body of a generator is a flag,
      [generator_stop], of everything that runs a generator or a generator
      expression.
    - Each execution of a [class] statement creates a new class; the
      identity of classes is a counter threaded through the constructors.

    Slices are not modelled: every index is a point index. *)

From Stdlib Require Import ZArith List Bool Lia.
Import ListNotations.

Open Scope Z_scope.

(** ** Outcomes of calls *)

Inductive exn : Type :=
| IndexError
| ValueError
| TypeError
| AttributeError
| StopIteration
| RuntimeError.

Inductive outcome (T : Type) : Type :=
| Ok (x : T)
| Raise (e : exn)
| OutOfFuel.

Arguments Ok {T} x.
Arguments Raise {T} e.
Arguments OutOfFuel {T}.

Definition bind {T U : Type} (c : outcome T) (k : T -> outcome U) : outcome U :=
  match c with
  | Ok x => k x
  | Raise e => Raise e
  | OutOfFuel => OutOfFuel
  end.

Declare Scope py_scope.
Delimit Scope py_scope with py.
Notation "x <- c ;; k" := (bind c (fun x => k))
  (at level 100, c at next level, right associativity) : py_scope.
Open Scope py_scope.

Definition exn_eqb (e1 e2 : exn) : bool :=
  match e1, e2 with
  | IndexError, IndexError
  | ValueError, ValueError
  | TypeError, TypeError
  | AttributeError, AttributeError
  | StopIteration, StopIteration
  | RuntimeError, RuntimeError => true
  | _, _ => false
  end.

(** [try: c except e: h] *)
Definition try_except {T : Type} (c : outcome T) (e : exn) (h : outcome T)
  : outcome T :=
  match c with
  | Raise e' => if exn_eqb e' e then h else c
  | _ => c
  end.

(** [[f(x) for x in l]]: the calls run in order and the first exception
    leaves the comprehension. *)
Fixpoint list_comp {T U : Type} (f : T -> outcome U) (l : list T)
  : outcome (list U) :=
  match l with
  | [] => Ok []
  | x :: l' => y <- f x ;; ys <- list_comp f l' ;; Ok (y :: ys)
  end.

(** Classes are created at run time; the state of a run is the number of
    classes created so far, which names the next one. *)
Definition M (T : Type) : Type := nat -> outcome T * nat.

Definition new_class : nat -> nat * nat := fun st => (st, S st).

(** ** Generators *)

Inductive generator (T : Type) : Type :=
| Yield (x : T) (rest : generator T)
| Return
| Throw (e : exn)
| Pending.

Arguments Yield {T} x rest.
Arguments Return {T}.
Arguments Throw {T} e.
Arguments Pending {T}.

(** [list(g)] *)
Fixpoint list_ {T : Type} (g : generator T) : outcome (list T) :=
  match g with
  | Yield x rest => xs <- list_ rest ;; Ok (x :: xs)
  | Return => Ok []
  | Throw e => Raise e
  | Pending => OutOfFuel
  end.

(** An exception that leaves the body of a generator.  A [StopIteration]
    ends the generator as a [return] does, unless [generator_stop] is in
    force (PEP 479, the default from Python 3.7 on), which turns it into a
    [RuntimeError]. *)
Definition leave_generator {T : Type} (generator_stop : bool) (e : exn)
  : generator T :=
  match e with
  | StopIteration => if generator_stop then Throw RuntimeError else Return
  | _ => Throw e
  end.

(** ** Native sequences *)

(** [items[z]] for a [list], [tuple] or [range]: a negative index counts from
    the end, and an index out of range raises [IndexError]. *)
Definition list_getitem {T : Type} (items : list T) (z : Z) : outcome T :=
  let n := Z.of_nat (length items) in
  let z' := if z <? 0 then z + n else z in
  if (z' <? 0) || (n <=? z') then Raise IndexError
  else match nth_error items (Z.to_nat z') with
       | Some x => Ok x
       | None => Raise IndexError
       end.

Section SeqView.

Variable A : Type.

(** ** Indices and sequences *)

#[warnings="-register-all"]
Inductive pyindex : Type :=
| Int (z : Z)
    (* a native index *)
| MapIndex (cls : nat) (seqindices : list pyindex)
    (* an instance of the class Index of a map view *)
| FilterIndex (cls : nat) (func : A -> bool) (seq : pyseq) (seqindex : pyindex)
    (* an instance of the class Index of a filter view; its methods close
       over the arguments func and seq of the view's __init__ *)
with pyseq : Type :=
| Native (items : list A)
    (* list, tuple, range: registered with collections.abc.Sequence *)
| MapBidirectionalView (sequence : bool) (cls : nat)
    (func : list A -> outcome A) (seqs : list pyseq) (begin_ end_ : pyindex)
    (* sequence = true: an instance of the subclass MapView *)
| FilterBidirectionalView (cls : nat) (func : A -> bool) (seq : pyseq)
    (begin_ end_ : pyindex)
| Iterator (items : list A)
    (* a generator or another plain iterable *)
| MapObject (func : list A -> outcome A) (iterables : list pyseq)
    (* the builtin map(func, *iterables) *)
| FilterObject (func : A -> bool) (iterable : pyseq)
    (* the builtin filter(func, iterable) *)
| UserList (items : list A).
    (* an instance of a class that inherits from collections.abc.Sequence
       and keeps its items in a list, as collections.UserList does *)

(** [isinstance(s, collections.abc.Sequence)] *)
Definition is_Sequence (s : pyseq) : bool :=
  match s with
  | Native _ => true
  | UserList _ => true
  | MapBidirectionalView sequence _ _ _ _ _ => sequence
  | _ => false
  end.

(** [isinstance(s, BidirectionalSequence)]; [Sequence] is registered as a
    virtual subclass. *)
Definition is_BidirectionalSequence (s : pyseq) : bool :=
  match s with
  | Native _ => true
  | UserList _ => true
  | MapBidirectionalView _ _ _ _ _ _ => true
  | FilterBidirectionalView _ _ _ _ _ => true
  | _ => false
  end.

(** *** Index equality *)

Inductive index_kind : Type :=
| KInt
| KMapIndex (cls : nat)
| KFilterIndex (cls : nat).

(** [index.__class__] *)
Definition class_of (i : pyindex) : index_kind :=
  match i with
  | Int _ => KInt
  | MapIndex cls _ => KMapIndex cls
  | FilterIndex cls _ _ _ => KFilterIndex cls
  end.

(** [i.__eq__(j)] of the two Index classes, and [==] on ints.  The test
    [self.__class__ == other.__class__] compares the identities of the
    classes; the component lists are compared as lists are.  An int
    compared with an Index instance answers NotImplemented, and the
    reflected [__eq__] of the instance then answers [False]. *)
Fixpoint index_eqb (i j : pyindex) {struct i} : bool :=
  match i, j with
  | Int a, Int b => a =? b
  | MapIndex c1 l1, MapIndex c2 l2 =>
      Nat.eqb c1 c2 &&
      (fix list_eqb (l1 l2 : list pyindex) {struct l1} : bool :=
         match l1, l2 with
         | [], [] => true
         | x :: l1', y :: l2' => index_eqb x y && list_eqb l1' l2'
         | _, _ => false
         end) l1 l2
  | FilterIndex c1 _ _ s1, FilterIndex c2 _ _ s2 =>
      Nat.eqb c1 c2 && index_eqb s1 s2
  | _, _ => false
  end.

(** [i == j] *)
Definition py_eq (i j : pyindex) : outcome bool := Ok (index_eqb i j).

(** [i != j]: [BidirectionalIndex.__ne__] is [not self == other]. *)
Definition py_ne (i j : pyindex) : outcome bool :=
  b <- py_eq i j ;; Ok (negb b).

(** *** len *)

(** What [min] may be given here: an Index instance or a list of indices. *)
Inductive pyobj : Type :=
| ObjIndex (i : pyindex)
| ObjList (l : list pyindex).

(** [iter(o)]: neither an int nor an Index instance is iterable. *)
Definition py_iter (o : pyobj) : outcome (list pyindex) :=
  match o with
  | ObjList l => Ok l
  | ObjIndex _ => Raise TypeError
  end.

(** [i < j]: the Index classes define no ordering. *)
Definition py_lt (i j : pyindex) : outcome bool :=
  match i, j with
  | Int a, Int b => Ok (a <? b)
  | _, _ => Raise TypeError
  end.

(** [min(o)] with one argument *)
Definition py_min (o : pyobj) : outcome pyindex :=
  l <- py_iter o ;;
  match l with
  | [] => Raise ValueError
  | x :: l' =>
      fold_left
        (fun acc y => m <- acc ;; b <- py_lt y m ;; Ok (if b then y else m))
        l' (Ok x)
  end.

(** [return min(self.end)] *)
Definition MapView__len__ (self : pyseq) : outcome pyindex :=
  match self with
  | MapBidirectionalView true _ _ _ _ e => py_min (ObjIndex e)
  | _ => Raise TypeError
  end.

(** [len(s)] *)
Definition len (s : pyseq) : outcome Z :=
  match s with
  | Native items => Ok (Z.of_nat (length items))
  | UserList items => Ok (Z.of_nat (length items))
  | MapBidirectionalView true _ _ _ _ _ =>
      n <- MapView__len__ s ;;
      match n with
      | Int z => Ok z
      | _ => Raise TypeError
      end
  | _ => Raise TypeError
  end.

(** *** begin, end *)

(** [collections.abc.Sequence.__begin__ = lambda self: 0] *)
Definition Sequence__begin__ (self : pyseq) : outcome pyindex := Ok (Int 0).

(** [collections.abc.Sized.__len__], the abstract method: [return 0] *)
Definition Sized__len__ (self : pyseq) : outcome pyindex := Ok (Int 0).

(** [collections.abc.Sequence.__end__ = collections.abc.Sequence.__len__]:
    [Sequence] defines no [__len__] of its own, so the attribute read on
    the right is the method it inherits from [Sized], not the [__len__] of
    the class of [self]. *)
Definition Sequence__end__ (self : pyseq) : outcome pyindex :=
  Sized__len__ self.

(** [self.__begin__()], [self.__end__()]: the views return what [__init__]
    stored; a class that inherits from [collections.abc.Sequence] finds the
    two methods the module adds to [Sequence]; list, tuple and range are
    registered with [Sequence] without inheriting from it and have
    neither, and nor has an iterator. *)
Definition __begin__ (self : pyseq) : outcome pyindex :=
  match self with
  | MapBidirectionalView _ _ _ _ b _ => Ok b
  | FilterBidirectionalView _ _ _ b _ => Ok b
  | UserList _ => Sequence__begin__ self
  | _ => Raise AttributeError
  end.

Definition __end__ (self : pyseq) : outcome pyindex :=
  match self with
  | MapBidirectionalView _ _ _ _ _ e => Ok e
  | FilterBidirectionalView _ _ _ _ e => Ok e
  | UserList _ => Sequence__end__ self
  | _ => Raise AttributeError
  end.

Definition begin (seq : pyseq) : outcome pyindex :=
  try_except (__begin__ seq) AttributeError
    (if is_Sequence seq then Ok (Int 0) else Raise AttributeError).

Definition end_ (seq : pyseq) : outcome pyindex :=
  try_except (__end__ seq) AttributeError
    (if is_Sequence seq then n <- len seq ;; Ok (Int n)
     else Raise AttributeError).

(** *** Element access: [self[index]] *)

(** [MapBidirectionalView.__getitem__] ends with
    [self.func( *(seq[i] for seq, i in si))]: the items of the sources are
    read in the body of a generator expression, and the call unpacks what
    that generator yields.  Hence a [StopIteration] raised by a source ends
    the generator, and the function is called with the items before it,
    unless [generator_stop] turns it into a [RuntimeError]; any other
    exception of a source leaves [__getitem__] as it is. *)
Fixpoint getitem (generator_stop : bool) (self : pyseq) (index : pyindex)
    {struct self} : outcome A :=
  match self with
  | Native items | UserList items =>
      match index with
      | Int z => list_getitem items z
      | _ => Raise TypeError
      end
  | MapBidirectionalView _ _ func seqs _ _ =>
      match index with
      | MapIndex _ seqindices =>
          (* si = zip(self.seqs, index.seqindices) *)
          args <- list_
                    ((fix genexp (ss : list pyseq) (js : list pyindex)
                        : generator A :=
                        match ss, js with
                        | s :: ss', j :: js' =>
                            match getitem generator_stop s j with
                            | Ok x => Yield x (genexp ss' js')
                            | Raise e => leave_generator generator_stop e
                            | OutOfFuel => Pending
                            end
                        | _, _ => Return
                        end) seqs seqindices) ;;
          func args
      | _ =>
          (* AttributeError: si = [(seq, index) for seq in self.seqs] *)
          args <- list_
                    ((fix genexp (ss : list pyseq) : generator A :=
                        match ss with
                        | s :: ss' =>
                            match getitem generator_stop s index with
                            | Ok x => Yield x (genexp ss')
                            | Raise e => leave_generator generator_stop e
                            | OutOfFuel => Pending
                            end
                        | [] => Return
                        end) seqs) ;;
          func args
      end
  | FilterBidirectionalView _ _ seq _ _ =>
      match index with
      | FilterIndex _ _ _ seqindex => getitem generator_stop seq seqindex
      | _ => Raise AttributeError
      end
  | _ => Raise TypeError
  end.

(** *** succ, pred *)

(** The [except AttributeError] of [succ] and [pred] also catches an
    [AttributeError] raised inside [__succ__] or [__pred__]; the fallback
    [index+1] (or [index-1]: an instance is true) then raises [TypeError]. *)
Definition no_method (r : outcome pyindex) : outcome pyindex :=
  try_except r AttributeError (Raise TypeError).

Fixpoint succ (generator_stop : bool) (fuel : nat) (index : pyindex)
    {struct fuel} : outcome pyindex :=
  match index with
  | Int z => Ok (Int (z + 1))
  | MapIndex cls seqindices =>
      match fuel with
      | O => OutOfFuel
      | S fuel' =>
          no_method (l <- list_comp (succ generator_stop fuel') seqindices ;;
                     Ok (MapIndex cls l))
      end
  | FilterIndex cls func seq seqindex =>
      match fuel with
      | O => OutOfFuel
      | S fuel' =>
          no_method
            (Filter_succ_loop generator_stop fuel' cls func seq seqindex)
      end
  end
with Filter_succ_loop (generator_stop : bool) (fuel : nat) (cls : nat)
       (func : A -> bool) (seq : pyseq) (seqindex : pyindex) {struct fuel}
       : outcome pyindex :=
  match fuel with
  | O => OutOfFuel
  | S fuel' =>
      j <- succ generator_stop fuel' seqindex ;;
      x <- getitem generator_stop seq j ;;
      if func x then Ok (FilterIndex cls func seq j)
      else Filter_succ_loop generator_stop fuel' cls func seq j
  end.

Fixpoint pred (generator_stop : bool) (fuel : nat) (index : pyindex)
    {struct fuel} : outcome pyindex :=
  match index with
  | Int z => if z =? 0 then Raise ValueError else Ok (Int (z - 1))
  | MapIndex cls seqindices =>
      match fuel with
      | O => OutOfFuel
      | S fuel' =>
          no_method (l <- list_comp (pred generator_stop fuel') seqindices ;;
                     Ok (MapIndex cls l))
      end
  | FilterIndex cls func seq seqindex =>
      match fuel with
      | O => OutOfFuel
      | S fuel' =>
          no_method
            (Filter_pred_loop generator_stop fuel' cls func seq seqindex)
      end
  end
with Filter_pred_loop (generator_stop : bool) (fuel : nat) (cls : nat)
       (func : A -> bool) (seq : pyseq) (seqindex : pyindex) {struct fuel}
       : outcome pyindex :=
  match fuel with
  | O => OutOfFuel
  | S fuel' =>
      j <- pred generator_stop fuel' seqindex ;;
      x <- getitem generator_stop seq j ;;
      if func x then Ok (FilterIndex cls func seq j)
      else Filter_pred_loop generator_stop fuel' cls func seq j
  end.

(** ** Iteration: the methods of BidirectionalSequence *)

(** [except IndexError as e: raise StopIteration from e] around the loop of
    [__iter__], followed by the exception leaving the generator. *)
Definition iter_handler (generator_stop : bool) (e : exn) : generator A :=
  match e with
  | IndexError => leave_generator generator_stop StopIteration
  | _ => leave_generator generator_stop e
  end.

(** [while pos != end: yield self[pos]; pos = succ(pos)] *)
Fixpoint iter_loop (generator_stop : bool) (fuel : nat) (self : pyseq)
    (pos end_ : pyindex) {struct fuel} : generator A :=
  match fuel with
  | O => Pending
  | S fuel' =>
      match py_ne pos end_ with
      | Ok true =>
          match getitem generator_stop self pos with
          | Ok x =>
              Yield x
                match succ generator_stop fuel' pos with
                | Ok pos' => iter_loop generator_stop fuel' self pos' end_
                | Raise e => iter_handler generator_stop e
                | OutOfFuel => Pending
                end
          | Raise e => iter_handler generator_stop e
          | OutOfFuel => Pending
          end
      | Ok false => Return
      | Raise e => iter_handler generator_stop e
      | OutOfFuel => Pending
      end
  end.

Definition __iter__ (generator_stop : bool) (fuel : nat) (self : pyseq)
  : generator A :=
  match __begin__ self, __end__ self with
  | Ok pos, Ok e => iter_loop generator_stop fuel self pos e
  | Raise e, _ | Ok _, Raise e => leave_generator generator_stop e
  | _, _ => Pending
  end.

(** [while pos != begin: pos = pred(pos); yield self[pos]] *)
Fixpoint reversed_loop (generator_stop : bool) (fuel : nat) (self : pyseq)
    (begin_ pos : pyindex) {struct fuel} : generator A :=
  match fuel with
  | O => Pending
  | S fuel' =>
      match py_ne pos begin_ with
      | Ok true =>
          match pred generator_stop fuel' pos with
          | Ok pos' =>
              match getitem generator_stop self pos' with
              | Ok x =>
                  Yield x (reversed_loop generator_stop fuel' self begin_ pos')
              | Raise e => leave_generator generator_stop e
              | OutOfFuel => Pending
              end
          | Raise e => leave_generator generator_stop e
          | OutOfFuel => Pending
          end
      | Ok false => Return
      | Raise e => leave_generator generator_stop e
      | OutOfFuel => Pending
      end
  end.

Definition __reversed__ (generator_stop : bool) (fuel : nat) (self : pyseq)
  : generator A :=
  match __begin__ self, __end__ self with
  | Ok b, Ok pos => reversed_loop generator_stop fuel self b pos
  | Raise e, _ | Ok _, Raise e => leave_generator generator_stop e
  | _, _ => Pending
  end.

(** The trace of a generator that yields the items of a list. *)
Fixpoint yield_from (items : list A) : generator A :=
  match items with
  | [] => Return
  | x :: items' => Yield x (yield_from items')
  end.

(** [reversed(s)]: the views inherit [__reversed__], a native sequence has
    its own, a class that inherits from [Sequence] has the one of
    [Sequence], which reads the items from the last to the first, and an
    iterator has none. *)
Definition py_reversed (generator_stop : bool) (fuel : nat) (s : pyseq)
  : outcome (generator A) :=
  match s with
  | Native items | UserList items => Ok (yield_from (rev items))
  | MapBidirectionalView _ _ _ _ _ _
  | FilterBidirectionalView _ _ _ _ _ =>
      Ok (__reversed__ generator_stop fuel s)
  | _ => Raise TypeError
  end.

(** ** The views *)

(** [MapBidirectionalView.__init__], run for the class MapView when
    [sequence] holds. *)
Definition MapBidirectionalView__init__ (sequence : bool)
    (func : list A -> outcome A) (seqs : list pyseq) : M pyseq :=
  fun st =>
    let (Index, st') := new_class st in
    (b <- list_comp begin seqs ;;
     e <- list_comp end_ seqs ;;
     Ok (MapBidirectionalView sequence Index func seqs
           (MapIndex Index b) (MapIndex Index e)),
     st').

(** [FilterBidirectionalView.__init__].  The handler of [StopIteration]
    reads [self.end] before it is assigned. *)
Definition FilterBidirectionalView__init__ (generator_stop : bool)
    (fuel : nat) (func : A -> bool) (seq : pyseq) : M pyseq :=
  fun st =>
    let (Index, st') := new_class st in
    (b0 <- begin seq ;;
     let self_begin := FilterIndex Index func seq b0 in
     b <- try_except
            (x <- getitem generator_stop seq b0 ;;
             if negb (func x) then succ generator_stop fuel self_begin
             else Ok self_begin)
            StopIteration (Raise AttributeError) ;;
     e <- end_ seq ;;
     Ok (FilterBidirectionalView Index func seq b
           (FilterIndex Index func seq e)),
     st').

(** ** smap, sfilter *)

Definition smap (func : list A -> outcome A) (iterables : list pyseq)
  : M pyseq :=
  if forallb is_Sequence iterables then
    MapBidirectionalView__init__ true func iterables
  else if forallb is_BidirectionalSequence iterables then
    MapBidirectionalView__init__ false func iterables
  else
    fun st => (Ok (MapObject func iterables), st).

Definition sfilter (generator_stop : bool) (fuel : nat) (func : A -> bool)
    (iterable : pyseq) : M pyseq :=
  if is_Sequence iterable then
    FilterBidirectionalView__init__ generator_stop fuel func iterable
  else
    fun st => (Ok (FilterObject func iterable), st).

(** A Python function of two arguments, called as [f( *args)]. *)
Definition binary (f : A -> A -> A) (args : list A) : outcome A :=
  match args with
  | [x; y] => Ok (f x y)
  | _ => Raise TypeError
  end.

Definition unary (f : A -> A) (args : list A) : outcome A :=
  match args with
  | [x] => Ok (f x)
  | _ => Raise TypeError
  end.

End SeqView.

Arguments Int {A} z.
Arguments MapIndex {A} cls seqindices.
Arguments FilterIndex {A} cls func seq seqindex.
Arguments Native {A} items.
Arguments MapBidirectionalView {A} sequence cls func seqs begin_ end_.
Arguments FilterBidirectionalView {A} cls func seq begin_ end_.
Arguments Iterator {A} items.
Arguments MapObject {A} func iterables.
Arguments FilterObject {A} func iterable.
Arguments UserList {A} items.
Arguments ObjIndex {A} i.
Arguments ObjList {A} l.
Arguments is_Sequence {A} s.
Arguments is_BidirectionalSequence {A} s.
Arguments class_of {A} i.
Arguments index_eqb {A} i j.
Arguments py_eq {A} i j.
Arguments py_ne {A} i j.
Arguments __begin__ {A} self.
Arguments __end__ {A} self.
Arguments begin {A} seq.
Arguments end_ {A} seq.
Arguments Sequence__begin__ {A} self.
Arguments Sized__len__ {A} self.
Arguments Sequence__end__ {A} self.
Arguments getitem {A} generator_stop self index.
Arguments succ {A} generator_stop fuel index.
Arguments pred {A} generator_stop fuel index.
Arguments Filter_succ_loop {A} generator_stop fuel cls func seq seqindex.
Arguments Filter_pred_loop {A} generator_stop fuel cls func seq seqindex.
Arguments iter_handler {A} generator_stop e.
Arguments iter_loop {A} generator_stop fuel self pos end_.
Arguments reversed_loop {A} generator_stop fuel self begin_ pos.
Arguments __iter__ {A} generator_stop fuel self.
Arguments __reversed__ {A} generator_stop fuel self.
Arguments py_reversed {A} generator_stop fuel s.
Arguments MapBidirectionalView__init__ {A} sequence func seqs.
Arguments FilterBidirectionalView__init__ {A} generator_stop fuel func seq.
Arguments py_iter {A} o.
Arguments py_lt {A} i j.
Arguments py_min {A} o.
Arguments MapView__len__ {A} self.
Arguments len {A} s.
Arguments smap {A} func iterables.
Arguments sfilter {A} generator_stop fuel func iterable.
Arguments binary {A} f args.
Arguments unary {A} f args.

(** ** The scenarios of the module's self-test *)

Definition view_of (r : outcome (pyseq Z) * nat) : pyseq Z :=
  match fst r with
  | Ok v => v
  | _ => Iterator []
  end.

Definition is_odd (x : Z) : bool := negb (x mod 2 =? 0).
Definition s1 : pyseq Z := Native [0; 1; 2; 3].

(** [sfilter(is_odd, s1)], a bidirectional view that is not a Sequence *)
Definition odds : pyseq Z := view_of (sfilter false 5 is_odd s1 0%nat).

Definition double (x : Z) : Z := x * 2.

(** [lambda x: x * 2], called with its arguments as a list *)
Definition double_row (r : list Z) : Z :=
  match r with
  | [x] => x * 2
  | _ => 0
  end.

(** a function of one argument that raises IndexError at 2 *)
Definition halts_at_two (r : list Z) : outcome Z :=
  match r with
  | [x] => if x =? 2 then Raise IndexError else Ok (x * 2)
  | _ => Raise TypeError
  end.

(** [smap(double, s1)] *)
Definition doubles : pyseq Z := view_of (smap (unary double) [s1] 0%nat).

(** two calls [smap(add, s1, s1)], one after the other *)
Definition sums1 : pyseq Z := view_of (smap (binary Z.add) [s1; s1] 0%nat).
Definition sums2 : pyseq Z := view_of (smap (binary Z.add) [s1; s1] 1%nat).

(** a function that raises [StopIteration] whatever it is given, and the
    MapView of it over [s1] *)
Definition stops (r : list Z) : outcome Z := Raise StopIteration.
Definition stopping : pyseq Z := view_of (smap stops [s1] 0%nat).

(** [lambda *args: sum(args)] *)
Definition sum_row (r : list Z) : outcome Z := Ok (fold_right Z.add 0 r).

(** [smap(sum_row, s1, stopping, s1)] *)
Definition sums_over_stopping : pyseq Z :=
  view_of (smap sum_row [s1; stopping; s1] 1%nat).

(** an index of a map view and an index of a filter view *)
Definition map_index0 : pyindex Z := MapIndex 0 [Int 0].
Definition filter_index1 : pyindex Z := FilterIndex 1 is_odd s1 (Int 1).


(** ** Which indices belong to which view *)

(** The class [Index] that the [__init__] of a view created. *)
Definition index_class {A : Type} (v : pyseq A) : option index_kind :=
  match v with
  | MapBidirectionalView _ cls _ _ _ _ => Some (KMapIndex cls)
  | FilterBidirectionalView cls _ _ _ _ => Some (KFilterIndex cls)
  | _ => None
  end.

(** [i] is an instance of the class [Index] of the view [v]. *)
Definition index_of {A : Type} (v : pyseq A) (i : pyindex A) : Prop :=
  index_class v = Some (class_of i).

(** A call that may construct a view. *)
Variant construction (A : Type) : Type :=
| by_smap (func : list A -> outcome A) (iterables : list (pyseq A))
| by_sfilter (generator_stop : bool) (fuel : nat) (func : A -> bool)
    (iterable : pyseq A).

Arguments by_smap {A} func iterables.
Arguments by_sfilter {A} generator_stop fuel func iterable.

Definition construct {A : Type} (c : construction A) : M (pyseq A) :=
  match c with
  | by_smap func iterables => smap func iterables
  | by_sfilter generator_stop fuel func iterable =>
      sfilter generator_stop fuel func iterable
  end.

(** What the module would compute as the length of a map view if [min] were
    given the component indices of [self.end], not the Index instance. *)
Definition min_of_seqindices {A : Type} (self : pyseq A) : outcome (pyindex A) :=
  match self with
  | MapBidirectionalView true _ _ _ _ (MapIndex _ seqindices) =>
      py_min (ObjList seqindices)
  | _ => Raise TypeError
  end.

(** [[f(x, y) for x, y in zip(a, b)]] *)
Definition elementwise {A : Type} (f : A -> A -> A) (a b : list A) : list A :=
  map (fun xy => f (fst xy) (snd xy)) (combine a b).

Arguments no_method {A} r.

(** ** Membership *)

(** [any(member == value for member in g)]; [eqb] is [==] on the elements.
    [any] stops at the first true test. *)
Fixpoint any_eq {A : Type} (eqb : A -> A -> bool) (value : A)
    (g : generator A) : outcome bool :=
  match g with
  | Yield member rest =>
      if eqb member value then Ok true else any_eq eqb value rest
  | Return => Ok false
  | Throw e => Raise e
  | Pending => OutOfFuel
  end.

(** [BidirectionalSequence.__contains__] *)
Definition __contains__ {A : Type} (eqb : A -> A -> bool)
    (generator_stop : bool) (fuel : nat) (self : pyseq A) (value : A)
  : outcome bool :=
  any_eq eqb value (__iter__ generator_stop fuel self).

(** ** Rows of several lists *)

(** The items yielded before a generator ends, however it ends. *)
Fixpoint yielded {A : Type} (g : generator A) : list A :=
  match g with
  | Yield x rest => x :: yielded rest
  | _ => []
  end.

(** The [k]-th items of all the lists, if each has one. *)
Fixpoint row {A : Type} (k : nat) (ls : list (list A)) : option (list A) :=
  match ls with
  | [] => Some []
  | l :: ls' =>
      match nth_error l k, row k ls' with
      | Some x, Some r => Some (x :: r)
      | _, _ => None
      end
  end.

(** The rows [k], [k+1], ... up to the first one that is missing, at most
    [d] of them. *)
Fixpoint rows_from {A : Type} (d k : nat) (ls : list (list A))
  : list (list A) :=
  match d with
  | O => []
  | S d' =>
      match row k ls with
      | Some r => r :: rows_from d' (S k) ls
      | None => []
      end
  end.

(** [zip( *ls)], for at least one list *)
Definition rows {A : Type} (ls : list (list A)) : list (list A) :=
  match ls with
  | [] => []
  | l :: _ => rows_from (length l) 0 ls
  end.

(** * Properties *)

Section Properties.

Context {A : Type}.

Implicit Types (i j : pyindex A) (s v : pyseq A) (items : list A).

(** ** Native sequences and indices *)

Lemma begin_Native items : begin (Native items) = Ok (Int 0).
Proof. reflexivity. Qed.

Lemma end_Native items :
  end_ (Native items) = Ok (Int (Z.of_nat (length items))).
Proof. reflexivity. Qed.

(** C8: on a native index [succ] always returns the next integer; [pred]
    raises [ValueError] (underflow) exactly at 0 and returns the previous
    integer otherwise. *)
Theorem succ_pred_native (generator_stop : bool) (fuel : nat) (z : Z) :
  succ (A:=A) generator_stop fuel (Int z) = Ok (Int (z + 1)) /\
  pred (A:=A) generator_stop fuel (Int z)
    = (if z =? 0 then Raise ValueError else Ok (Int (z - 1))) /\
  (pred (A:=A) generator_stop fuel (Int z) = Raise ValueError <-> z = 0).
Proof.
  assert (Hs : succ (A:=A) generator_stop fuel (Int z) = Ok (Int (z + 1)))
    by (destruct fuel; reflexivity).
  assert (Hp : pred (A:=A) generator_stop fuel (Int z)
               = (if z =? 0 then Raise ValueError else Ok (Int (z - 1))))
    by (destruct fuel; reflexivity).
  repeat split; trivial.
  - rewrite Hp. destruct (Z.eqb_spec z 0); [trivial | discriminate].
  - intros ->. rewrite Hp. reflexivity.
Qed.

(** ** Equality of indices *)

Lemma py_eq_returns i j : exists b, py_eq i j = Ok b.
Proof. eexists; reflexivity. Qed.

Lemma index_eqb_classes i j :
  index_eqb i j = true -> class_of i = class_of j.
Proof.
  destruct i, j; simpl; try discriminate; trivial;
    intros H; apply andb_prop in H as [H _];
    apply Nat.eqb_eq in H; now subst.
Qed.

Lemma index_eqb_different_classes i j :
  class_of i <> class_of j -> index_eqb i j = false.
Proof.
  intros Hk. destruct (index_eqb i j) eqn:E; trivial.
  now apply index_eqb_classes in E.
Qed.

Lemma py_eq_different_classes i j :
  class_of i <> class_of j -> py_eq i j = Ok false.
Proof.
  intros Hk. unfold py_eq. now rewrite index_eqb_different_classes.
Qed.

(** C7 (as the module has it): comparing two indices of different classes
    raises nothing and answers [False]. *)
Theorem eq_of_different_classes i j :
  class_of i <> class_of j ->
  py_eq i j = Ok false /\ py_ne i j = Ok true.
Proof.
  intros Hk. unfold py_ne.
  rewrite (py_eq_different_classes i j Hk). split; reflexivity.
Qed.

(** ** Stepping keeps the class of an index *)

Lemma Filter_succ_loop_class (generator_stop : bool) fuel cls func s j r :
  Filter_succ_loop generator_stop fuel cls func s j = Ok r ->
  class_of r = KFilterIndex cls.
Proof.
  revert j. induction fuel as [|fuel IH]; intros j; simpl; [discriminate|].
  destruct (succ generator_stop fuel j) as [j'| |]; simpl; try discriminate.
  destruct (getitem generator_stop s j') as [x| |]; simpl; try discriminate.
  destruct (func x); [|apply IH].
  intros [= <-]. reflexivity.
Qed.

Lemma Filter_pred_loop_class (generator_stop : bool) fuel cls func s j r :
  Filter_pred_loop generator_stop fuel cls func s j = Ok r ->
  class_of r = KFilterIndex cls.
Proof.
  revert j. induction fuel as [|fuel IH]; intros j; simpl; [discriminate|].
  destruct (pred generator_stop fuel j) as [j'| |]; simpl; try discriminate.
  destruct (getitem generator_stop s j') as [x| |]; simpl; try discriminate.
  destruct (func x); [|apply IH].
  intros [= <-]. reflexivity.
Qed.

Lemma no_method_Ok (r : outcome (pyindex A)) i :
  no_method r = Ok i -> r = Ok i.
Proof.
  destruct r as [x|e|]; simpl; trivial.
  destruct e; discriminate.
Qed.

Lemma succ_class (generator_stop : bool) fuel i j :
  succ generator_stop fuel i = Ok j -> class_of j = class_of i.
Proof.
  destruct i as [z|cls l|cls func s k]; destruct fuel as [|fuel]; simpl;
    try discriminate; try (intros [= <-]; reflexivity);
    intros H; apply no_method_Ok in H.
  - destruct (list_comp (succ generator_stop fuel) l); simpl in H;
      try discriminate.
    injection H as <-. reflexivity.
  - now apply Filter_succ_loop_class in H.
Qed.

Lemma pred_class (generator_stop : bool) fuel i j :
  pred generator_stop fuel i = Ok j -> class_of j = class_of i.
Proof.
  destruct i as [z|cls l|cls func s k]; destruct fuel as [|fuel]; simpl;
    try discriminate;
    try (destruct (z =? 0); [discriminate | intros [= <-]; reflexivity]);
    intros H; apply no_method_Ok in H.
  - destruct (list_comp (pred generator_stop fuel) l); simpl in H;
      try discriminate.
    injection H as <-. reflexivity.
  - now apply Filter_pred_loop_class in H.
Qed.

(** ** Construction of views *)

Lemma MapBidirectionalView__init__class sequence func seqs st v st' :
  MapBidirectionalView__init__ sequence func seqs st = (Ok v, st') ->
  st' = S st /\ index_class v = Some (KMapIndex st) /\
  exists b e, begin v = Ok b /\ end_ v = Ok e /\
              index_of v b /\ index_of v e.
Proof.
  unfold MapBidirectionalView__init__. simpl.
  destruct (list_comp begin seqs) as [b| |]; simpl; try discriminate.
  destruct (list_comp end_ seqs) as [e| |]; simpl; try discriminate.
  intros [= <- <-]. repeat split.
  exists (MapIndex st b), (MapIndex st e). repeat split.
Qed.

Lemma FilterBidirectionalView__init__class (generator_stop : bool) fuel func
    s st v st' :
  FilterBidirectionalView__init__ generator_stop fuel func s st = (Ok v, st') ->
  st' = S st /\ index_class v = Some (KFilterIndex st) /\
  exists b e, begin v = Ok b /\ end_ v = Ok e /\
              index_of v b /\ index_of v e.
Proof.
  unfold FilterBidirectionalView__init__. simpl.
  destruct (begin s) as [b0| |]; simpl; try discriminate.
  match goal with |- context [try_except ?c _ _] => destruct c as [b|e|] eqn:Eb end;
    simpl; try discriminate.
  2: { destruct e; discriminate. }
  destruct (end_ s) as [e| |]; simpl; try discriminate.
  intros [= <- <-]. repeat split.
  exists b, (FilterIndex st func s e). repeat split.
  unfold index_of. simpl. f_equal.
  destruct (getitem generator_stop s b0) as [x| |]; simpl in Eb;
    try discriminate.
  destruct (func x); simpl in Eb.
  - injection Eb as <-. reflexivity.
  - apply succ_class in Eb. now rewrite Eb.
Qed.

Lemma construct_class (c : construction A) st v st' :
  construct c st = (Ok v, st') ->
  index_class v <> None ->
  st' = S st /\
  (index_class v = Some (KMapIndex st) \/
   index_class v = Some (KFilterIndex st)) /\
  exists b e, begin v = Ok b /\ end_ v = Ok e /\
              index_of v b /\ index_of v e.
Proof.
  destruct c as [func seqs|generator_stop fuel func s]; simpl.
  - unfold smap.
    destruct (forallb is_Sequence seqs);
      [|destruct (forallb is_BidirectionalSequence seqs)].
    1,2: intros H _; apply MapBidirectionalView__init__class in H;
         destruct H as (? & ? & ?); auto.
    intros [= <- <-] H. now elim H.
  - unfold sfilter. destruct (is_Sequence s).
    + intros H _. apply FilterBidirectionalView__init__class in H.
      destruct H as (? & ? & ?); auto.
    + intros [= <- <-] H. now elim H.
Qed.

(** C10: two views constructed one after the other have different Index
    classes, whatever they are constructed from; so no index of one is
    equal to an index of the other, and in particular their [begin] and
    [end] indices are unequal. *)
Theorem indices_of_separate_views (c1 c2 : construction A)
    (st st1 st2 st3 : nat) v1 v2 :
  construct c1 st = (Ok v1, st1) ->
  (st1 <= st2)%nat ->
  construct c2 st2 = (Ok v2, st3) ->
  index_class v1 <> None ->
  index_class v2 <> None ->
  (forall i j, index_of v1 i -> index_of v2 j ->
     py_eq i j = Ok false /\ py_eq j i = Ok false) /\
  (exists b1 e1 b2 e2,
     begin v1 = Ok b1 /\ end_ v1 = Ok e1 /\
     begin v2 = Ok b2 /\ end_ v2 = Ok e2 /\
     py_eq b1 b2 = Ok false /\ py_eq e1 e2 = Ok false).
Proof.
  intros H1 Hle H2 N1 N2.
  destruct (construct_class _ _ _ _ H1 N1)
    as (-> & K1 & b1 & e1 & Hb1 & He1 & Ib1 & Ie1).
  destruct (construct_class _ _ _ _ H2 N2)
    as (-> & K2 & b2 & e2 & Hb2 & He2 & Ib2 & Ie2).
  assert (D : forall i j, index_of v1 i -> index_of v2 j ->
                          class_of i <> class_of j).
  { unfold index_of. intros i j Hi Hj E. rewrite <- E in Hj.
    destruct K1 as [K1|K1], K2 as [K2|K2];
      rewrite K1 in Hi; rewrite K2 in Hj; rewrite <- Hi in Hj;
      injection Hj as Hj; try discriminate; lia. }
  split.
  - intros i j Hi Hj. split; apply py_eq_different_classes; auto.
    intros E. now apply (D i j).
  - exists b1, e1, b2, e2. repeat split; trivial;
      apply py_eq_different_classes; auto.
Qed.

(** ** Lists *)

Lemma list_getitem_nat (T : Type) (l : list T) (k : nat) :
  list_getitem l (Z.of_nat k)
  = match nth_error l k with Some x => Ok x | None => Raise IndexError end.
Proof.
  unfold list_getitem.
  destruct (Z.ltb_spec (Z.of_nat k) 0) as [H|_]; [lia|].
  destruct (Z.ltb_spec (Z.of_nat k) 0) as [H|_]; [lia|]. simpl.
  rewrite Nat2Z.id.
  destruct (Z.leb_spec (Z.of_nat (length l)) (Z.of_nat k)) as [H|H];
    [|reflexivity].
  assert (E : nth_error l k = None) by (apply nth_error_None; lia).
  now rewrite E.
Qed.

Lemma skipn_nth_error (T : Type) (l : list T) (k : nat) (x : T) :
  nth_error l k = Some x -> skipn k l = x :: skipn (S k) l.
Proof.
  revert l. induction k as [|k IH]; intros [|y l]; simpl; try discriminate.
  - now intros [= ->].
  - intros H. now rewrite (IH l H).
Qed.

Lemma firstn_nth_error (T : Type) (l : list T) (k : nat) (x : T) :
  nth_error l k = Some x -> firstn (S k) l = firstn k l ++ [x].
Proof.
  revert l. induction k as [|k IH]; intros [|y l]; simpl; try discriminate.
  - now intros [= ->].
  - intros H. now rewrite <- (IH l H).
Qed.

Lemma elementwise_length (f : A -> A -> A) (a b : list A) :
  length (elementwise f a b) = Nat.min (length a) (length b).
Proof. unfold elementwise. now rewrite length_map, length_combine. Qed.

Lemma elementwise_nth_error (f : A -> A -> A) (a b : list A) (k : nat) :
  nth_error (elementwise f a b) k
  = match nth_error a k, nth_error b k with
    | Some x, Some y => Some (f x y)
    | _, _ => None
    end.
Proof.
  revert b k. induction a as [|x a IH]; intros [|y b] [|k]; simpl; trivial.
  - now destruct (nth_error a k).
  - apply IH.
Qed.

(** ** Map views over two native sequences *)

Lemma succ_Int (generator_stop : bool) fuel (z : Z) :
  succ (A:=A) generator_stop fuel (Int z) = Ok (Int (z + 1)).
Proof. now destruct fuel. Qed.

Lemma pred_Int (generator_stop : bool) fuel (z : Z) :
  pred (A:=A) generator_stop fuel (Int z)
  = if z =? 0 then Raise ValueError else Ok (Int (z - 1)).
Proof. now destruct fuel. Qed.

Lemma yielded_iter_handler (generator_stop : bool) (e : exn) :
  yielded (iter_handler (A:=A) generator_stop e) = [].
Proof. now destruct e, generator_stop. Qed.

Section Map2.

Variables (f : A -> A -> A) (a b : list A).
Variables (sequence : bool) (cls : nat) (begin_ end_ : pyindex A).

Let view : pyseq A :=
  MapBidirectionalView sequence cls (binary f) [Native a; Native b]
    begin_ end_.

Let at_ (k l : nat) : pyindex A :=
  MapIndex cls [Int (Z.of_nat k); Int (Z.of_nat l)].

Lemma getitem_map2 (generator_stop : bool) (k : nat) :
  getitem generator_stop view (at_ k k)
  = match nth_error (elementwise f a b) k with
    | Some z => Ok z
    | None => Raise IndexError
    end.
Proof.
  rewrite elementwise_nth_error. simpl. rewrite !list_getitem_nat.
  destruct (nth_error a k); simpl; trivial.
  destruct (nth_error b k); reflexivity.
Qed.

Lemma succ_map2 (generator_stop : bool) fuel (k l : nat) :
  succ generator_stop (S fuel) (at_ k l) = Ok (at_ (S k) (S l)).
Proof.
  unfold at_. cbn [succ list_comp]. rewrite !succ_Int.
  cbn [bind no_method try_except]. repeat f_equal; lia.
Qed.

Lemma pred_map2 (generator_stop : bool) fuel (k l : nat) :
  pred generator_stop (S fuel) (at_ (S k) (S l)) = Ok (at_ k l).
Proof.
  unfold at_. cbn [pred list_comp]. rewrite !pred_Int.
  destruct (Z.eqb_spec (Z.of_nat (S k)) 0) as [H|_]; [lia|].
  destruct (Z.eqb_spec (Z.of_nat (S l)) 0) as [H|_]; [lia|].
  cbn [bind no_method try_except]. repeat f_equal; lia.
Qed.

Lemma py_ne_map2 (k l k' l' : nat) :
  py_ne (at_ k l) (at_ k' l')
  = Ok (negb (Nat.eqb k k' && Nat.eqb l l')).
Proof.
  unfold py_ne, py_eq, at_. simpl. rewrite Nat.eqb_refl, andb_true_r. simpl.
  do 3 f_equal.
  - destruct (Z.eqb_spec (Z.of_nat k) (Z.of_nat k')), (Nat.eqb_spec k k');
      trivial; lia.
  - destruct (Z.eqb_spec (Z.of_nat l) (Z.of_nat l')), (Nat.eqb_spec l l');
      trivial; lia.
Qed.

(** The loop of [__iter__] from position [k] on.  With sources of different
    lengths it ends by the [IndexError] of the shorter one. *)
Lemma iter_loop_map2 (generator_stop : bool) (d k fuel : nat) :
  generator_stop = false \/ length a = length b ->
  Nat.min (length a) (length b) = (k + d)%nat ->
  (d < fuel)%nat ->
  list_ (iter_loop generator_stop fuel view (at_ k k)
           (at_ (length a) (length b)))
  = Ok (skipn k (elementwise f a b)).
Proof.
  intros Hgs. revert k fuel.
  induction d as [|d IH]; intros k [|fuel] Hk Hfuel; try lia.
  - (* at the end of the shorter source *)
    cbn [iter_loop]. rewrite py_ne_map2.
    rewrite skipn_all2 by (rewrite elementwise_length; lia).
    destruct (Nat.eqb_spec k (length a)) as [Ea|Na],
             (Nat.eqb_spec k (length b)) as [Eb|Nb];
      cbn [andb negb]; trivial.
    all: rewrite getitem_map2.
    all: assert (E : nth_error (elementwise f a b) k = None)
           by (apply nth_error_None; rewrite elementwise_length; lia).
    all: rewrite E; cbn [iter_handler leave_generator].
    all: destruct Hgs as [-> | Hlen]; [reflexivity | lia].
  - cbn [iter_loop]. rewrite py_ne_map2.
    destruct (Nat.eqb_spec k (length a)) as [Ea|Na]; [lia|].
    cbn [andb negb]. rewrite getitem_map2.
    destruct (nth_error (elementwise f a b) k) as [z|] eqn:E.
    2: { apply nth_error_None in E. rewrite elementwise_length in E. lia. }
    destruct fuel as [|fuel]; [lia|].
    rewrite succ_map2. cbn [list_].
    rewrite IH by lia. cbn [bind].
    now rewrite (skipn_nth_error _ _ _ _ E).
Qed.

(** The loop of [__reversed__] from position [k] down, for sources of one
    length. *)
Lemma reversed_loop_map2 (generator_stop : bool) (k fuel : nat) :
  (k <= Nat.min (length a) (length b))%nat ->
  (k < fuel)%nat ->
  list_ (reversed_loop generator_stop fuel view (at_ 0 0) (at_ k k))
  = Ok (rev (firstn k (elementwise f a b))).
Proof.
  revert fuel. induction k as [|k IH]; intros [|fuel] Hk Hfuel; try lia.
  - cbn [reversed_loop]. rewrite py_ne_map2. reflexivity.
  - cbn [reversed_loop]. rewrite py_ne_map2. cbn [Nat.eqb andb negb].
    destruct fuel as [|fuel]; [lia|].
    rewrite pred_map2, getitem_map2.
    destruct (nth_error (elementwise f a b) k) as [z|] eqn:E.
    2: { apply nth_error_None in E. rewrite elementwise_length in E. lia. }
    cbn [list_]. rewrite IH by lia. cbn [bind].
    rewrite (firstn_nth_error _ _ _ _ E), rev_app_distr. reflexivity.
Qed.

(** Under [generator_stop] the same loop over sources of different lengths
    ends with a [RuntimeError]. *)
Lemma iter_loop_map2_generator_stop (d k fuel : nat) :
  length a <> length b ->
  Nat.min (length a) (length b) = (k + d)%nat ->
  (d < fuel)%nat ->
  list_ (iter_loop true fuel view (at_ k k) (at_ (length a) (length b)))
  = Raise RuntimeError.
Proof.
  intros Hne. revert k fuel.
  induction d as [|d IH]; intros k [|fuel] Hk Hfuel; try lia.
  - cbn [iter_loop]. rewrite py_ne_map2.
    assert (E : nth_error (elementwise f a b) k = None)
      by (apply nth_error_None; rewrite elementwise_length; lia).
    destruct (Nat.eqb_spec k (length a)) as [Ea|Na],
             (Nat.eqb_spec k (length b)) as [Eb|Nb];
      cbn [andb negb]; try lia.
    all: rewrite getitem_map2, E; reflexivity.
  - cbn [iter_loop]. rewrite py_ne_map2.
    destruct (Nat.eqb_spec k (length a)) as [Ea|Na]; [lia|].
    cbn [andb negb]. rewrite getitem_map2.
    destruct (nth_error (elementwise f a b) k) as [z|] eqn:E.
    2: { apply nth_error_None in E. rewrite elementwise_length in E. lia. }
    destruct fuel as [|fuel]; [lia|].
    rewrite succ_map2. cbn [list_].
    rewrite IH by lia. reflexivity.
Qed.

(** The items that the loop of [__iter__] yields, however it ends. *)
Lemma yielded_iter_loop_map2 (generator_stop : bool) (d k fuel : nat) :
  Nat.min (length a) (length b) = (k + d)%nat ->
  (d < fuel)%nat ->
  yielded (iter_loop generator_stop fuel view (at_ k k)
             (at_ (length a) (length b)))
  = skipn k (elementwise f a b).
Proof.
  revert k fuel.
  induction d as [|d IH]; intros k [|fuel] Hk Hfuel; try lia;
    cbn [iter_loop]; rewrite py_ne_map2.
  - rewrite skipn_all2 by (rewrite elementwise_length; lia).
    destruct (negb (Nat.eqb k (length a) && Nat.eqb k (length b)));
      [|reflexivity].
    rewrite getitem_map2.
    assert (E : nth_error (elementwise f a b) k = None)
      by (apply nth_error_None; rewrite elementwise_length; lia).
    rewrite E. apply yielded_iter_handler.
  - destruct (Nat.eqb_spec k (length a)) as [Ea|Na]; [lia|].
    cbn [andb negb]. rewrite getitem_map2.
    destruct (nth_error (elementwise f a b) k) as [z|] eqn:E.
    2: { apply nth_error_None in E. rewrite elementwise_length in E. lia. }
    destruct fuel as [|fuel]; [lia|].
    rewrite succ_map2. cbn [yielded].
    rewrite IH by lia.
    now rewrite (skipn_nth_error _ _ _ _ E).
Qed.

End Map2.

Lemma smap_native2 (f : A -> A -> A) (a b : list A) (st : nat) :
  smap (binary f) [Native a; Native b] st
  = (Ok (MapBidirectionalView true st (binary f) [Native a; Native b]
           (MapIndex st [Int 0; Int 0])
           (MapIndex st [Int (Z.of_nat (length a));
                         Int (Z.of_nat (length b))])),
     S st).
Proof. reflexivity. Qed.

Lemma smap_UserList2 (f : A -> A -> A) (a b : list A) (st : nat) :
  smap (binary f) [UserList a; UserList b] st
  = (Ok (MapBidirectionalView true st (binary f) [UserList a; UserList b]
           (MapIndex st [Int 0; Int 0]) (MapIndex st [Int 0; Int 0])),
     S st).
Proof. reflexivity. Qed.

(** C1 (what the module does): for two native sequences (list, tuple,
    range) of one length and a function of two arguments, the view that
    [smap] returns yields [f(a[i], b[i])] in index order when iterated
    forward, and the same list reversed when iterated backward.  For two
    instances of a class that inherits from [collections.abc.Sequence]
    that hold these items, [end] is 0 whatever the length is, and the
    view yields nothing in either direction. *)
Theorem smap_equal_lengths (f : A -> A -> A) (a b : list A)
    (generator_stop : bool) (st fuel : nat) :
  length a = length b ->
  (length a < fuel)%nat ->
  (exists v l,
     smap (binary f) [Native a; Native b] st = (Ok v, S st) /\
     list_ (__iter__ generator_stop fuel v) = Ok l /\
     list_ (__reversed__ generator_stop fuel v) = Ok (rev l) /\
     length l = length a /\
     (forall k x y, nth_error a k = Some x -> nth_error b k = Some y ->
                    nth_error l k = Some (f x y))) /\
  (exists v,
     smap (binary f) [UserList a; UserList b] st = (Ok v, S st) /\
     len (UserList a) = Ok (Z.of_nat (length a)) /\
     end_ (UserList a) = Ok (Int 0) /\
     list_ (__iter__ generator_stop fuel v) = Ok [] /\
     list_ (__reversed__ generator_stop fuel v) = Ok []).
Proof.
  intros Hlen Hfuel. split.
  - eexists. exists (elementwise f a b).
    split; [apply smap_native2|].
    unfold __iter__, __reversed__. cbn [__begin__ __end__].
    repeat split.
    + change (Int (A:=A) 0) with (Int (A:=A) (Z.of_nat 0)).
      rewrite (iter_loop_map2 f a b true st _ _ generator_stop
                 (length a) 0 fuel); trivial; [now right | lia].
    + change (Int (A:=A) 0) with (Int (A:=A) (Z.of_nat 0)).
      rewrite <- Hlen.
      rewrite (reversed_loop_map2 f a b true st _ _ generator_stop
                 (length a)); try lia.
      rewrite firstn_all2; [reflexivity|]. rewrite elementwise_length. lia.
    + rewrite elementwise_length. lia.
    + intros k x y Hx Hy. now rewrite elementwise_nth_error, Hx, Hy.
  - eexists. split; [apply smap_UserList2|].
    destruct fuel as [|fuel']; [lia|].
    unfold __iter__, __reversed__. cbn [__begin__ __end__].
    cbn [iter_loop reversed_loop]. unfold py_ne, py_eq.
    cbn [index_eqb bind]. rewrite Nat.eqb_refl. repeat split.
Qed.

(** ** The defects of the module *)

Lemma list_comp_begin (seqs : list (pyseq A)) :
  forallb is_BidirectionalSequence seqs = true ->
  exists bs es, list_comp begin seqs = Ok bs /\ list_comp end_ seqs = Ok es.
Proof.
  induction seqs as [|s seqs IH]; simpl; [now exists [], []|].
  intros H. apply andb_prop in H as [Hs H].
  destruct (IH H) as (bs & es & -> & ->).
  destruct s; try discriminate; simpl; eauto.
Qed.

Lemma forallb_is_Sequence (seqs : list (pyseq A)) :
  forallb is_Sequence seqs = true ->
  forallb is_BidirectionalSequence seqs = true.
Proof.
  induction seqs as [|s seqs IH]; simpl; trivial.
  intros H. apply andb_prop in H as [Hs H]. rewrite (IH H).
  destruct s; try discriminate; reflexivity.
Qed.

(** C4 (what the module does): when all sources are sequences [smap]
    returns a MapView, and taking the length of that view raises
    [TypeError]: [__len__] hands [min] the Index instance [self.end], which
    is not iterable. *)
Theorem len_of_MapView_raises (func : list A -> outcome A)
    (seqs : list (pyseq A)) (st : nat) :
  forallb is_Sequence seqs = true ->
  exists v,
    smap func seqs st = (Ok v, S st) /\
    is_Sequence v = true /\
    MapView__len__ v = Raise TypeError /\
    len v = Raise TypeError.
Proof.
  intros H. unfold smap. rewrite H.
  destruct (list_comp_begin seqs (forallb_is_Sequence seqs H))
    as (bs & es & Hb & He).
  unfold MapBidirectionalView__init__. cbn [new_class].
  rewrite Hb, He. cbn [bind]. eexists. split; [reflexivity|].
  repeat split.
Qed.

(** C6 (what the module does): [sfilter] tests its input for [Sequence]
    only, so a bidirectional sequence that is not a [Sequence] gets the
    builtin filter object, which can be neither indexed nor reversed. *)
Theorem sfilter_of_bidirectional_only (fuel fuel' : nat) (func : A -> bool)
    (s : pyseq A) (st : nat) (generator_stop : bool) (i : pyindex A) :
  is_BidirectionalSequence s = true ->
  is_Sequence s = false ->
  sfilter generator_stop fuel func s st = (Ok (FilterObject func s), st) /\
  getitem generator_stop (FilterObject func s) i = Raise TypeError /\
  py_reversed generator_stop fuel' (FilterObject func s) = Raise TypeError.
Proof.
  intros _ H. unfold sfilter. rewrite H. repeat split.
Qed.

(** C9 (as the module has it): [smap] called with a function and no
    sequence raises nothing; it returns a MapView over no source, whose
    [begin] and [end] are equal and which yields nothing in either
    direction. *)
Theorem smap_of_no_sequence (func : list A -> outcome A) (st fuel : nat)
    (generator_stop : bool) :
  let v := MapBidirectionalView true st func []
             (MapIndex st []) (MapIndex st []) in
  smap func [] st = (Ok v, S st) /\
  py_eq (MapIndex (A:=A) st []) (MapIndex st []) = Ok true /\
  list_ (__iter__ generator_stop (S fuel) v) = Ok [] /\
  list_ (__reversed__ generator_stop (S fuel) v) = Ok [].
Proof.
  unfold __iter__, __reversed__, py_eq, py_ne. simpl.
  unfold py_ne, py_eq. simpl. rewrite Nat.eqb_refl. repeat split.
Qed.

(** ** Filter views over a native sequence *)

Section FilterNative.

Variables (p : A -> bool) (items : list A) (cls : nat).

Let src : pyseq A := Native items.

Let fi (k : nat) : pyindex A := FilterIndex cls p src (Int (Z.of_nat k)).

Lemma getitem_native (generator_stop : bool) (k : nat) :
  getitem generator_stop src (Int (Z.of_nat k))
  = match nth_error items k with Some x => Ok x | None => Raise IndexError end.
Proof. apply list_getitem_nat. Qed.

Lemma py_ne_filter (k l : nat) : py_ne (fi k) (fi l) = Ok (negb (Nat.eqb k l)).
Proof.
  unfold py_ne, py_eq, fi. cbn [index_eqb bind]. rewrite Nat.eqb_refl.
  cbn [andb]. do 2 f_equal.
  destruct (Z.eqb_spec (Z.of_nat k) (Z.of_nat l)), (Nat.eqb_spec k l);
    trivial; lia.
Qed.

Lemma succ_filter (generator_stop : bool) (fuel k : nat) :
  succ generator_stop (S fuel) (fi k)
  = no_method
      (Filter_succ_loop generator_stop fuel cls p src (Int (Z.of_nat k))).
Proof. reflexivity. Qed.

Lemma pred_filter (generator_stop : bool) (fuel k : nat) :
  pred generator_stop (S fuel) (fi k)
  = no_method
      (Filter_pred_loop generator_stop fuel cls p src (Int (Z.of_nat k))).
Proof. reflexivity. Qed.

(** The loop of [Index.__succ__] started at position [k]: it stops at the
    next position whose item passes, and raises [IndexError] when there is
    none. *)
Lemma Filter_succ_loop_native (generator_stop : bool) (fuel k : nat) :
  (1 <= fuel)%nat ->
  (length items <= k + fuel)%nat ->
  (Filter_succ_loop generator_stop fuel cls p src (Int (Z.of_nat k))
   = Raise IndexError /\
   filter p (skipn (S k) items) = [])
  \/
  (exists k' x,
     (k < k')%nat /\ nth_error items k' = Some x /\ p x = true /\
     Filter_succ_loop generator_stop fuel cls p src (Int (Z.of_nat k))
     = Ok (fi k') /\
     filter p (skipn (S k) items) = filter p (skipn k' items) /\
     filter p (firstn k' items) = filter p (firstn (S k) items)).
Proof.
  revert k. induction fuel as [|fuel IH]; intros k H1 Hlen; [lia|].
  cbn [Filter_succ_loop]. rewrite succ_Int. cbn [bind].
  replace (Z.of_nat k + 1) with (Z.of_nat (S k)) by lia.
  rewrite getitem_native.
  destruct (nth_error items (S k)) as [x|] eqn:E; cbn [bind].
  2: { left. split; trivial.
       rewrite skipn_all2 by (now apply nth_error_None). reflexivity. }
  assert (S k < length items)%nat
    by (apply nth_error_Some; congruence).
  destruct (p x) eqn:Px.
  - right. exists (S k), x. repeat split; trivial. lia.
  - rewrite (skipn_nth_error _ _ _ _ E). cbn [filter]. rewrite Px.
    destruct (IH (S k)) as [[-> ->] | (k' & y & Hk & Hy & Py & -> & -> & Hf)];
      try lia.
    + now left.
    + right. exists k', y. repeat split; trivial; try lia.
      rewrite Hf, (firstn_nth_error _ _ _ _ E), filter_app. cbn [filter].
      rewrite Px. now rewrite app_nil_r.
Qed.

(** The loop of [Index.__pred__] started at position [k], when some item
    before [k] passes. *)
Lemma Filter_pred_loop_native (generator_stop : bool) (fuel k : nat) :
  (k <= fuel)%nat ->
  (k <= length items)%nat ->
  (exists m y, (m < k)%nat /\ nth_error items m = Some y /\ p y = true) ->
  exists k' x,
    (k' < k)%nat /\ nth_error items k' = Some x /\ p x = true /\
    Filter_pred_loop generator_stop fuel cls p src (Int (Z.of_nat k))
    = Ok (fi k') /\
    filter p (firstn k items) = filter p (firstn k' items) ++ [x].
Proof.
  revert k.
  induction fuel as [|fuel IH]; intros k Hfuel Hlen (m & y & Hm & Hy & Py);
    [lia|].
  destruct k as [|k]; [lia|].
  cbn [Filter_pred_loop]. rewrite pred_Int.
  destruct (Z.eqb_spec (Z.of_nat (S k)) 0) as [H|_]; [lia|]. cbn [bind].
  replace (Z.of_nat (S k) - 1) with (Z.of_nat k) by lia.
  rewrite getitem_native.
  destruct (nth_error items k) as [x|] eqn:E.
  2: { apply nth_error_None in E. lia. }
  cbn [bind]. rewrite (firstn_nth_error _ _ _ _ E), filter_app. cbn [filter].
  destruct (p x) eqn:Px.
  - exists k, x. repeat split; trivial. lia.
  - assert (m <> k) by congruence.
    destruct (IH k) as (k' & z & Hk & Hz & Pz & -> & ->); try lia.
    { exists m, y. repeat split; trivial. lia. }
    exists k', z. repeat split; trivial; try lia.
    now rewrite app_nil_r.
Qed.

Lemma first_passing (b k : nat) (x : A) :
  filter p (firstn b items) = [] ->
  nth_error items k = Some x -> p x = true -> (b <= k)%nat.
Proof.
  intros Hb Hk Px. destruct (Nat.le_gt_cases b k) as [|Hlt]; trivial.
  assert (In x (filter p (firstn b items))) as Hin.
  { apply filter_In. split; trivial.
    apply nth_error_In with k. rewrite nth_error_firstn.
    destruct (Nat.ltb_spec k b); [trivial | lia]. }
  rewrite Hb in Hin. destruct Hin.
Qed.

Variables (begin_ : pyindex A).

Let view : pyseq A :=
  FilterBidirectionalView cls p src begin_ (fi (length items)).

(** The loop of [__iter__] from a position whose item passes.  It always
    ends by the [IndexError] that [succ] raises past the last item. *)
Lemma iter_loop_filter (n k fuel : nat) (x : A) :
  nth_error items k = Some x -> p x = true ->
  (length items - k <= n)%nat ->
  (length items - k + 2 <= fuel)%nat ->
  list_ (iter_loop false fuel view (fi k) (fi (length items)))
  = Ok (filter p (skipn k items)).
Proof.
  revert k fuel x.
  induction n as [|n IH]; intros k fuel x Hk Px Hn Hfuel;
    assert (k < length items)%nat by (apply nth_error_Some; congruence);
    [lia|].
  destruct fuel as [|fuel]; [lia|].
  cbn [iter_loop]. rewrite py_ne_filter.
  destruct (Nat.eqb_spec k (length items)); [lia|]. cbn [negb].
  change (getitem false view (fi k))
    with (getitem false src (Int (Z.of_nat k))).
  destruct fuel as [|fuel]; [lia|].
  rewrite getitem_native, Hk, succ_filter.
  rewrite (skipn_nth_error _ _ _ _ Hk). cbn [filter]. rewrite Px.
  destruct (Filter_succ_loop_native false fuel k)
    as [[-> ->] | (k' & y & Hlt & Hy & Py & -> & -> & _)]; try lia.
  - reflexivity.
  - cbn [no_method try_except list_].
    assert (k' < length items)%nat by (apply nth_error_Some; congruence).
    rewrite (IH k' (S fuel) y); trivial; try lia.
Qed.

Lemma iter_loop_filter_generator_stop (n k fuel : nat) (x : A) :
  nth_error items k = Some x -> p x = true ->
  (length items - k <= n)%nat ->
  (length items - k + 2 <= fuel)%nat ->
  list_ (iter_loop true fuel view (fi k) (fi (length items)))
  = Raise RuntimeError.
Proof.
  revert k fuel x.
  induction n as [|n IH]; intros k fuel x Hk Px Hn Hfuel;
    assert (k < length items)%nat by (apply nth_error_Some; congruence);
    [lia|].
  destruct fuel as [|fuel]; [lia|].
  cbn [iter_loop]. rewrite py_ne_filter.
  destruct (Nat.eqb_spec k (length items)); [lia|]. cbn [negb].
  change (getitem true view (fi k)) with (getitem true src (Int (Z.of_nat k))).
  destruct fuel as [|fuel]; [lia|].
  rewrite getitem_native, Hk, succ_filter.
  destruct (Filter_succ_loop_native true fuel k)
    as [[-> _] | (k' & y & Hlt & Hy & Py & -> & _)]; try lia.
  - reflexivity.
  - cbn [no_method try_except list_].
    assert (k' < length items)%nat by (apply nth_error_Some; congruence).
    rewrite (IH k' (S fuel) y); trivial; try lia.
Qed.

(** The loop of [__reversed__] from [end], or from a position whose item
    passes, down to the first such position [b]. *)
Lemma reversed_loop_filter (generator_stop : bool) (b : nat) (xb : A)
    (n k fuel : nat) :
  nth_error items b = Some xb -> p xb = true ->
  filter p (firstn b items) = [] ->
  (b <= k)%nat -> (k <= n)%nat -> (k <= length items)%nat ->
  (k + 2 <= fuel)%nat ->
  list_ (reversed_loop generator_stop fuel view (fi b) (fi k))
  = Ok (rev (filter p (firstn k items))).
Proof.
  intros Hb Pb Hfirst. revert k fuel.
  induction n as [|n IH]; intros k fuel Hbk Hn Hlen Hfuel.
  - assert (k = 0 /\ b = 0)%nat as [-> ->] by lia.
    destruct fuel as [|fuel]; [lia|].
    cbn [reversed_loop]. rewrite py_ne_filter. reflexivity.
  - destruct fuel as [|fuel]; [lia|].
    cbn [reversed_loop]. rewrite py_ne_filter.
    destruct (Nat.eqb_spec k b) as [->|Hne]; cbn [negb].
    + now rewrite Hfirst.
    + destruct fuel as [|fuel]; [lia|]. rewrite pred_filter.
      destruct (Filter_pred_loop_native generator_stop fuel k)
        as (k' & x & Hlt & Hx & Px & -> & ->); try lia.
      { exists b, xb. repeat split; trivial. lia. }
      cbn [no_method try_except].
      change (getitem generator_stop view (fi k'))
        with (getitem generator_stop src (Int (Z.of_nat k'))).
      rewrite getitem_native, Hx. cbn [list_].
      rewrite (IH k' (S fuel)); try lia.
      * cbn [bind]. now rewrite rev_app_distr.
      * now apply (first_passing b k' x).
Qed.

End FilterNative.

Lemma existsb_filter_nil (p : A -> bool) (l : list A) :
  existsb p l = true -> filter p l <> [].
Proof.
  intros H E. apply existsb_exists in H as (x & Hin & Px).
  assert (In x (filter p l)) as Hf by (apply filter_In; auto).
  rewrite E in Hf. destruct Hf.
Qed.

(** When some item passes, [__init__] finds the first position [b] whose
    item does. *)
Lemma sfilter_first_match (generator_stop : bool) (p : A -> bool)
    (items : list A) (st fuel : nat) :
  existsb p items = true ->
  (length items + 2 <= fuel)%nat ->
  exists b xb,
    nth_error items b = Some xb /\ p xb = true /\
    filter p (firstn b items) = [] /\
    sfilter generator_stop fuel p (Native items) st
    = (Ok (FilterBidirectionalView st p (Native items)
             (FilterIndex st p (Native items) (Int (Z.of_nat b)))
             (FilterIndex st p (Native items)
                (Int (Z.of_nat (length items))))),
       S st).
Proof.
  intros Hex Hfuel. apply existsb_filter_nil in Hex.
  unfold sfilter, FilterBidirectionalView__init__.
  cbn [is_Sequence new_class]. rewrite begin_Native, end_Native.
  cbn [bind].
  change (Int (A:=A) 0) with (Int (A:=A) (Z.of_nat 0)).
  rewrite getitem_native.
  destruct (nth_error items 0) as [x0|] eqn:E0.
  2: { apply nth_error_None in E0. elim Hex.
       destruct items; [reflexivity | cbn [length] in E0; lia]. }
  cbn [bind].
  pose proof (skipn_nth_error _ _ _ _ E0) as Hskip.
  cbn [skipn] in Hskip.
  destruct (p x0) eqn:P0; cbn [negb].
  - exists 0%nat, x0. repeat split; trivial.
  - destruct fuel as [|fuel']; [lia|]. rewrite succ_filter.
    destruct (Filter_succ_loop_native p items st generator_stop fuel' 0)
      as [[_ Hnil] | (k' & y & _ & Hy & Py & -> & _ & Hk')]; try lia.
    + elim Hex. rewrite Hskip. cbn [filter]. now rewrite P0.
    + exists k', y. repeat split; trivial.
      rewrite Hk'.
      replace (firstn 1 items) with [x0]
        by (destruct items; [discriminate | now injection E0 as ->]).
      cbn [filter]. now rewrite P0.
Qed.

(** When some item passes, [sfilter] over a native sequence constructs a
    view; without [generator_stop] its forward iteration yields the passing
    items in order, and its backward iteration yields them reversed. *)
Lemma sfilter_some_match (p : A -> bool) (items : list A)
    (generator_stop : bool) (st fuel : nat) :
  existsb p items = true ->
  (length items + 2 <= fuel)%nat ->
  exists v,
    sfilter generator_stop fuel p (Native items) st = (Ok v, S st) /\
    list_ (__iter__ false fuel v) = Ok (filter p items) /\
    list_ (__reversed__ generator_stop fuel v) = Ok (rev (filter p items)).
Proof.
  intros Hex Hfuel.
  destruct (sfilter_first_match generator_stop p items st fuel Hex Hfuel)
    as (b & xb & Hb & Pb & Hfirst & ->).
  eexists. split; [reflexivity|].
  unfold __iter__, __reversed__. cbn [__begin__ __end__].
  assert (b < length items)%nat by (apply nth_error_Some; congruence).
  split.
  - rewrite (iter_loop_filter p items st _ (length items) b fuel xb);
      trivial; try lia.
    rewrite <- (firstn_skipn b items) at 2.
    now rewrite filter_app, Hfirst.
  - rewrite (reversed_loop_filter p items st _ generator_stop b xb
               (length items) (length items) fuel); trivial; try lia.
    now rewrite firstn_all.
Qed.

(** Under [generator_stop] the forward iteration of such a view raises
    [RuntimeError] after its last item. *)
Remark sfilter_some_match_generator_stop (p : A -> bool) (items : list A)
    (st fuel : nat) :
  existsb p items = true ->
  (length items + 2 <= fuel)%nat ->
  exists v,
    sfilter true fuel p (Native items) st = (Ok v, S st) /\
    list_ (__iter__ true fuel v) = Raise RuntimeError.
Proof.
  intros Hex Hfuel.
  destruct (sfilter_first_match true p items st fuel Hex Hfuel)
    as (b & xb & Hb & Pb & Hfirst & ->).
  eexists. split; [reflexivity|].
  unfold __iter__. cbn [__begin__ __end__].
  assert (b < length items)%nat by (apply nth_error_Some; congruence).
  apply (iter_loop_filter_generator_stop p items st _ (length items) b fuel xb);
    trivial; lia.
Qed.

(** With no passing item the loop of [Index.__succ__] never returns. *)
Lemma Filter_succ_loop_no_match (generator_stop : bool) (p : A -> bool)
    (items : list A) (cls fuel k : nat) (r : pyindex A) :
  (forall x, In x items -> p x = false) ->
  Filter_succ_loop generator_stop fuel cls p (Native items) (Int (Z.of_nat k))
  <> Ok r.
Proof.
  intros Hp. revert k. induction fuel as [|fuel IH]; intros k; [discriminate|].
  cbn [Filter_succ_loop]. rewrite succ_Int. cbn [bind].
  replace (Z.of_nat k + 1) with (Z.of_nat (S k)) by lia.
  rewrite getitem_native.
  destruct (nth_error items (S k)) as [x|] eqn:E; [|discriminate].
  cbn [bind]. rewrite (Hp x (nth_error_In _ _ E)). apply IH.
Qed.

(** Over a native sequence none of whose items passes, the search of
    [__init__] for the first position runs past the last item. *)
Lemma sfilter_no_match (generator_stop : bool) (p : A -> bool)
    (items : list A) (st fuel : nat) :
  (forall x, In x items -> p x = false) ->
  (length items < fuel)%nat ->
  sfilter generator_stop fuel p (Native items) st = (Raise IndexError, S st).
Proof.
  intros Hp Hfuel.
  unfold sfilter, FilterBidirectionalView__init__.
  cbn [is_Sequence new_class]. rewrite begin_Native, ?end_Native.
  cbn [bind].
  change (Int (A:=A) 0) with (Int (A:=A) (Z.of_nat 0)).
  rewrite getitem_native.
  destruct (nth_error items 0) as [x0|] eqn:E0; [|reflexivity].
  assert (0 < length items)%nat by (apply nth_error_Some; congruence).
  cbn [bind]. rewrite (Hp x0 (nth_error_In _ _ E0)). cbn [negb].
  destruct fuel as [|fuel']; [lia|]. rewrite succ_filter.
  destruct (Filter_succ_loop_native p items st generator_stop fuel' 0)
    as [[-> _] | (k' & y & _ & Hy & Py & _)]; try lia.
  - reflexivity.
  - rewrite (Hp y (nth_error_In _ _ Hy)) in Py. discriminate.
Qed.

Lemma sfilter_no_match_never_returns (generator_stop : bool)
    (p : A -> bool) (items : list A) (st st' fuel : nat) (v : pyseq A) :
  (forall x, In x items -> p x = false) ->
  sfilter generator_stop fuel p (Native items) st <> (Ok v, st').
Proof.
  intros Hp.
  unfold sfilter, FilterBidirectionalView__init__.
  cbn [is_Sequence new_class]. rewrite begin_Native, ?end_Native.
  cbn [bind].
  change (Int (A:=A) 0) with (Int (A:=A) (Z.of_nat 0)).
  rewrite getitem_native.
  destruct (nth_error items 0) as [x0|] eqn:E0; [|discriminate].
  cbn [bind]. rewrite (Hp x0 (nth_error_In _ _ E0)). cbn [negb].
  destruct fuel as [|fuel']; [discriminate|]. rewrite succ_filter.
  destruct (Filter_succ_loop generator_stop fuel' st p (Native items)
              (Int (Z.of_nat 0))) as [r|e|] eqn:E.
  - now apply Filter_succ_loop_no_match in E.
  - destruct e; discriminate.
  - discriminate.
Qed.

(** C3 (what the module does): over a native sequence none of whose items
    passes, the construction of the filter view raises [IndexError]:
    [__init__] handles [StopIteration] only.  No amount of fuel makes the
    construction return. *)
Theorem sfilter_no_match_raises (generator_stop : bool) (p : A -> bool)
    (items : list A) (st fuel : nat) :
  (forall x, In x items -> p x = false) ->
  (length items < fuel)%nat ->
  sfilter generator_stop fuel p (Native items) st = (Raise IndexError, S st) /\
  (forall fuel' v st',
     sfilter generator_stop fuel' p (Native items) st <> (Ok v, st')).
Proof.
  intros Hp Hfuel. split.
  - now apply sfilter_no_match.
  - intros fuel' v st'. now apply sfilter_no_match_never_returns.
Qed.

(** C2 (what the module does): over a native sequence with a passing item
    the view yields the passing items in order and, backward, the same
    list reversed; over a native sequence without one there is no view to
    iterate, because its construction raises [IndexError]. *)
Theorem sfilter_iteration (p : A -> bool) (items : list A)
    (generator_stop : bool) (st fuel : nat) :
  (length items + 2 <= fuel)%nat ->
  if existsb p items then
    exists v,
      sfilter generator_stop fuel p (Native items) st = (Ok v, S st) /\
      list_ (__iter__ false fuel v) = Ok (filter p items) /\
      list_ (__reversed__ generator_stop fuel v) = Ok (rev (filter p items))
  else
    sfilter generator_stop fuel p (Native items) st = (Raise IndexError, S st).
Proof.
  intros Hfuel. destruct (existsb p items) eqn:E.
  - now apply sfilter_some_match.
  - apply sfilter_no_match; [|lia].
    intros x Hin. destruct (p x) eqn:Px; trivial.
    assert (existsb p items = true) by (apply existsb_exists; eauto).
    congruence.
Qed.

(** What [__len__] would return with [min(self.end.seqindices)]: the
    length of the shortest source. *)
Lemma py_min_Int (z : Z) (l : list Z) :
  py_min (ObjList (map (Int (A:=A)) (z :: l)))
  = Ok (Int (fold_left Z.min l z)).
Proof.
  unfold py_min. cbn [py_iter bind map]. revert z.
  induction l as [|y l IH]; intros z; cbn [map fold_left]; [reflexivity|].
  cbn [bind py_lt]. rewrite <- IH. do 2 f_equal.
  destruct (Z.ltb_spec y z).
  - now rewrite Z.min_r by lia.
  - now rewrite Z.min_l by lia.
Qed.

Lemma min_of_seqindices_native (func : list A -> outcome A)
    (items : list A) (others : list (list A)) (st : nat) :
  exists v,
    smap func (map Native (items :: others)) st = (Ok v, S st) /\
    min_of_seqindices v
    = Ok (Int (fold_left Z.min
                 (map (fun l => Z.of_nat (length l)) others)
                 (Z.of_nat (length items)))).
Proof.
  assert (Hseq : forall ls : list (list A),
             forallb is_Sequence (map Native ls) = true)
    by (induction ls; simpl; auto).
  assert (Hb : forall ls : list (list A),
             list_comp begin (map Native ls) = Ok (map (fun _ => Int 0) ls)).
  { induction ls as [|l ls IH]; [reflexivity|].
    cbn [map list_comp begin bind]. now rewrite IH. }
  assert (He : forall ls : list (list A),
             list_comp end_ (map Native ls)
             = Ok (map (Int (A:=A))
                     (map (fun l => Z.of_nat (length l)) ls))).
  { induction ls as [|l ls IH]; [reflexivity|].
    cbn [map list_comp end_ bind]. now rewrite IH. }
  unfold smap, MapBidirectionalView__init__.
  rewrite Hseq, Hb, He. cbn [new_class bind]. eexists. split; [reflexivity|].
  cbn [min_of_seqindices]. apply (py_min_Int _ _).
Qed.

End Properties.

(** * The claims at concrete inputs *)

(** C5 (what the module does): for two native sequences of any lengths,
    in either order, the forward iteration of the view that [smap] returns
    yields as many elements as the shorter one has, [f(a[i], b[i])] at
    position [i].  When the lengths differ the iteration ends by the
    [IndexError] of the shorter sequence, which [__iter__] turns into a
    [StopIteration] in the body of the generator: the iteration ends as a
    return does only without [generator_stop], and with it (PEP 479)
    [list] raises [RuntimeError].  So [smap(add, [0,1,2,3], [10])] yields
    10 and [list] of it is [[10]] without [generator_stop] and raises with
    it.  Over instances of a class that inherits from
    [collections.abc.Sequence] nothing is yielded. *)
Theorem smap_stops_at_shortest :
  (forall (A : Type) (f : A -> A -> A) (a b : list A)
          (generator_stop : bool) (st fuel : nat),
     (Nat.min (length a) (length b) < fuel)%nat ->
     exists v l,
       smap (binary f) [Native a; Native b] st = (Ok v, S st) /\
       yielded (__iter__ generator_stop fuel v) = l /\
       length l = Nat.min (length a) (length b) /\
       (forall k x y, nth_error a k = Some x -> nth_error b k = Some y ->
                      nth_error l k = Some (f x y)) /\
       list_ (__iter__ generator_stop fuel v)
       = if generator_stop && negb (Nat.eqb (length a) (length b))
         then Raise RuntimeError else Ok l) /\
  list_ (__iter__ false 2
           (view_of (smap (binary Z.add) [s1; Native [10]] 0%nat)))
  = Ok [10] /\
  list_ (__iter__ false 2
           (view_of (smap (binary Z.add) [Native [10]; s1] 0%nat)))
  = Ok [10] /\
  list_ (__iter__ true 2
           (view_of (smap (binary Z.add) [s1; Native [10]] 0%nat)))
  = Raise RuntimeError /\
  list_ (__iter__ true 2
           (view_of (smap (binary Z.add) [Native [10]; s1] 0%nat)))
  = Raise RuntimeError /\
  (forall generator_stop,
     list_ (__iter__ generator_stop 2
              (view_of (smap (binary Z.add)
                          [UserList [0; 1; 2; 3]; UserList [10]] 0%nat)))
     = Ok []).
Proof.
  split; [|repeat split].
  intros A f a b generator_stop st fuel Hfuel.
  eexists. exists (elementwise f a b).
  split; [apply smap_native2|]. unfold __iter__. cbn [__begin__ __end__].
  change (Int (A:=A) 0) with (Int (A:=A) (Z.of_nat 0)).
  split; [|split; [|split]].
  - now apply (yielded_iter_loop_map2 f a b true st _ _ generator_stop
                 (Nat.min (length a) (length b)) 0 fuel).
  - apply elementwise_length.
  - intros k x y Hx Hy. now rewrite elementwise_nth_error, Hx, Hy.
  - destruct generator_stop; cbn [andb].
    + destruct (Nat.eqb_spec (length a) (length b)) as [E|N]; cbn [negb].
      * apply (iter_loop_map2 f a b true st _ _ true
                 (Nat.min (length a) (length b)) 0 fuel); auto.
      * now apply (iter_loop_map2_generator_stop f a b true st _ _
                     (Nat.min (length a) (length b)) 0 fuel).
    + apply (iter_loop_map2 f a b true st _ _ false
               (Nat.min (length a) (length b)) 0 fuel); auto.
Qed.

Lemma smap_stops_at_shortest_witness :
  (Nat.min (length [0; 1; 2; 3]) (length [10]) < 2)%nat /\
  exists v l,
    smap (binary Z.add) [Native [0; 1; 2; 3]; Native [10]] 0%nat
    = (Ok v, 1%nat) /\
    yielded (__iter__ true 2 v) = l /\
    length l = 1%nat /\
    (forall k x y, nth_error [0; 1; 2; 3] k = Some x ->
                   nth_error [10] k = Some y ->
                   nth_error l k = Some (x + y)) /\
    list_ (__iter__ true 2 v) = Raise RuntimeError.
Proof.
  split; [simpl; lia|].
  apply (proj1 smap_stops_at_shortest Z Z.add [0; 1; 2; 3] [10] true
           0%nat 2%nat).
  simpl; lia.
Defined.

Lemma smap_equal_lengths_witness :
  length [0; 1; 2; 3] = length [10; 20; 30; 40] /\
  (length [0; 1; 2; 3] < 5)%nat /\
  (exists v l,
     smap (binary Z.add) [Native [0; 1; 2; 3]; Native [10; 20; 30; 40]] 0%nat
     = (Ok v, 1%nat) /\
     list_ (__iter__ true 5 v) = Ok l /\
     list_ (__reversed__ true 5 v) = Ok (rev l) /\
     length l = 4%nat /\
     (forall k x y, nth_error [0; 1; 2; 3] k = Some x ->
                    nth_error [10; 20; 30; 40] k = Some y ->
                    nth_error l k = Some (x + y))) /\
  (exists v,
     smap (binary Z.add) [UserList [0; 1; 2; 3]; UserList [10; 20; 30; 40]]
       0%nat
     = (Ok v, 1%nat) /\
     len (UserList [0; 1; 2; 3]) = Ok 4 /\
     end_ (UserList [0; 1; 2; 3]) = Ok (Int 0) /\
     list_ (__iter__ true 5 v) = Ok [] /\
     list_ (__reversed__ true 5 v) = Ok []).
Proof.
  split; [reflexivity|]. split; [simpl; lia|].
  apply (smap_equal_lengths Z.add [0; 1; 2; 3] [10; 20; 30; 40] true 0 5).
  - reflexivity.
  - simpl; lia.
Defined.

Lemma sfilter_iteration_witness :
  (length [0; 2] + 2 <= 5)%nat /\
  sfilter false 5 is_odd (Native [0; 2]) 0%nat = (Raise IndexError, 1%nat).
Proof.
  split; [simpl; lia|].
  apply (sfilter_iteration is_odd [0; 2] false 0 5).
  simpl; lia.
Defined.

Lemma sfilter_no_match_raises_witness :
  (forall x, In x [0; 1; 2; 3] -> (fun _ : Z => false) x = false) /\
  (length [0; 1; 2; 3] < 5)%nat /\
  sfilter false 5 (fun _ : Z => false) s1 0%nat = (Raise IndexError, 1%nat) /\
  (forall fuel' v st',
     sfilter false fuel' (fun _ : Z => false) s1 0%nat <> (Ok v, st')).
Proof.
  split; [reflexivity|]. split; [simpl; lia|].
  apply (sfilter_no_match_raises false (fun _ : Z => false) [0; 1; 2; 3] 0 5).
  - reflexivity.
  - simpl; lia.
Defined.

Lemma len_of_MapView_raises_witness :
  forallb is_Sequence [s1; Native [10]] = true /\
  exists v,
    smap (binary Z.add) [s1; Native [10]] 0%nat = (Ok v, 1%nat) /\
    is_Sequence v = true /\
    MapView__len__ v = Raise TypeError /\
    len v = Raise TypeError.
Proof.
  split; [reflexivity|].
  apply (len_of_MapView_raises (binary Z.add) [s1; Native [10]] 0).
  reflexivity.
Defined.

Lemma sfilter_of_bidirectional_only_witness :
  is_BidirectionalSequence odds = true /\
  is_Sequence odds = false /\
  sfilter false 5 is_odd odds 1%nat = (Ok (FilterObject is_odd odds), 1%nat) /\
  getitem false (FilterObject is_odd odds) (Int 0) = Raise TypeError /\
  py_reversed false 5 (FilterObject is_odd odds) = Raise TypeError.
Proof.
  split; [reflexivity|]. split; [reflexivity|].
  apply (sfilter_of_bidirectional_only 5 5 is_odd odds 1 false (Int 0));
    reflexivity.
Defined.

(** C7 as the specification has it fails: an index of a map view compared
    with an index of a filter view gives [False], and nothing is raised. *)
Lemma eq_of_different_classes_counterexample :
  class_of map_index0 <> class_of filter_index1 /\
  py_eq map_index0 filter_index1 = Ok false /\
  py_eq filter_index1 map_index0 = Ok false /\
  ~ (exists e, py_eq map_index0 filter_index1 = Raise e).
Proof.
  repeat split; try discriminate.
  intros [e H]. discriminate.
Qed.

Lemma eq_of_different_classes_witness :
  class_of map_index0 <> class_of filter_index1 /\
  py_eq map_index0 filter_index1 = Ok false /\
  py_ne map_index0 filter_index1 = Ok true.
Proof.
  assert (H : class_of map_index0 <> class_of filter_index1) by discriminate.
  split; [exact H|].
  apply (eq_of_different_classes map_index0 filter_index1 H).
Defined.

(** C9 as the specification has it fails: [smap] with no sequence returns
    a view. *)
Lemma smap_of_no_sequence_counterexample :
  smap (binary Z.add) [] 0%nat
  = (Ok (MapBidirectionalView true 0 (binary Z.add) []
           (MapIndex 0 []) (MapIndex 0 [])), 1%nat) /\
  ~ (exists e, fst (smap (binary Z.add) [] 0%nat) = Raise e).
Proof.
  split; [reflexivity|]. intros [e H]. discriminate.
Qed.

Lemma indices_of_separate_views_witness :
  construct (by_smap (binary Z.add) [s1; s1]) 0%nat = (Ok sums1, 1%nat) /\
  (1 <= 1)%nat /\
  construct (by_smap (binary Z.add) [s1; s1]) 1%nat = (Ok sums2, 2%nat) /\
  index_class sums1 <> None /\
  index_class sums2 <> None /\
  (forall i j, index_of sums1 i -> index_of sums2 j ->
     py_eq i j = Ok false /\ py_eq j i = Ok false) /\
  (exists b1 e1 b2 e2,
     begin sums1 = Ok b1 /\ end_ sums1 = Ok e1 /\
     begin sums2 = Ok b2 /\ end_ sums2 = Ok e2 /\
     py_eq b1 b2 = Ok false /\ py_eq e1 e2 = Ok false).
Proof.
  assert (H1 : construct (by_smap (binary Z.add) [s1; s1]) 0%nat
               = (Ok sums1, 1%nat)) by reflexivity.
  assert (H2 : construct (by_smap (binary Z.add) [s1; s1]) 1%nat
               = (Ok sums2, 2%nat)) by reflexivity.
  assert (N1 : index_class sums1 <> None) by discriminate.
  assert (N2 : index_class sums2 <> None) by discriminate.
  repeat (split; [assumption || apply le_n|]).
  exact (indices_of_separate_views _ _ 0 1 1 2 sums1 sums2
           H1 (le_n 1) H2 N1 N2).
Defined.

(** * The scenarios of the self-test, evaluated *)

Example map_double :
  list_ (__iter__ false 5 doubles) = Ok [0; 2; 4; 6] /\
  list_ (__reversed__ false 5 doubles) = Ok [6; 4; 2; 0].
Proof. split; reflexivity. Qed.

Example filter_odd :
  list_ (__iter__ false 6 odds) = Ok [1; 3] /\
  list_ (__reversed__ false 6 odds) = Ok [3; 1].
Proof. split; reflexivity. Qed.

Example map_add : list_ (__iter__ false 5 sums1) = Ok [0; 2; 4; 6].
Proof. reflexivity. Qed.

(** The reverse iteration over sources of different lengths is outside the
    contract of the module: here it yields 13 and then raises. *)
Example map_add_ragged_reversed :
  __reversed__ false 5 (view_of (smap (binary Z.add) [s1; Native [10]] 0%nat))
  = Yield 13 (Throw ValueError).
Proof. reflexivity. Qed.

(** A map view over a filter view is bidirectional only. *)
Example map_double_of_filter_odd :
  let v := view_of (smap (unary double) [odds] 1%nat) in
  is_Sequence v = false /\
  list_ (__iter__ false 8 v) = Ok [2; 6] /\
  list_ (__reversed__ false 8 v) = Ok [6; 2].
Proof. repeat split; reflexivity. Qed.

(** No doubled value is odd: the construction of the filter view raises. *)
Example filter_odd_of_map_double :
  sfilter false 8 is_odd doubles 1%nat = (Raise IndexError, 2%nat).
Proof. reflexivity. Qed.

(** A generator is not a bidirectional sequence: the builtins are used. *)
Example smap_sfilter_of_generator :
  smap (unary double) [Iterator [0; 1; 2; 3]] 0%nat
  = (Ok (MapObject (unary double) [Iterator [0; 1; 2; 3]]), 0%nat) /\
  sfilter false 5 is_odd (Iterator [0; 1; 2; 3]) 0%nat
  = (Ok (FilterObject is_odd (Iterator [0; 1; 2; 3])), 0%nat).
Proof. split; reflexivity. Qed.

(** * Other inputs, evaluated *)

(** MapViews as the sources of a MapView: [smap(add, doubles, doubles)] *)
Example map_add_of_map_views :
  forall generator_stop,
    let v := view_of (smap (binary Z.add) [doubles; doubles] 1%nat) in
    is_Sequence v = true /\
    list_ (__iter__ generator_stop 6 v) = Ok [0; 4; 8; 12] /\
    list_ (__reversed__ generator_stop 6 v) = Ok [12; 8; 4; 0].
Proof. intros []; repeat split; reflexivity. Qed.

(** An instance of a class that inherits from [collections.abc.Sequence]:
    its [end] is 0, and the views over it yield nothing. *)
Example views_of_UserList :
  forall generator_stop,
    begin (UserList [0; 1; 2; 3]) = Ok (Int 0) /\
    end_ (UserList [0; 1; 2; 3]) = Ok (Int 0) /\
    len (UserList [0; 1; 2; 3]) = Ok 4 /\
    list_ (__iter__ generator_stop 6
             (view_of (smap (unary double) [UserList [0; 1; 2; 3]] 0%nat)))
    = Ok [] /\
    list_ (__iter__ generator_stop 6
             (view_of (sfilter generator_stop 6 is_odd (UserList [1; 3])
                         0%nat)))
    = Ok [].
Proof. intros []; repeat split; reflexivity. Qed.

(** A source that raises [StopIteration]: without [generator_stop] the
    function is called with the item of the source before it only, with
    [generator_stop] indexing raises [RuntimeError]. *)
Example getitem_over_stopping :
  getitem false sums_over_stopping
    (MapIndex 1 [Int 1; MapIndex 0 [Int 1]; Int 1])
  = Ok 1 /\
  getitem true sums_over_stopping
    (MapIndex 1 [Int 1; MapIndex 0 [Int 1]; Int 1])
  = Raise RuntimeError /\
  list_ (__iter__ false 6 sums_over_stopping) = Ok [0; 1; 2; 3] /\
  list_ (__iter__ true 6 sums_over_stopping) = Raise RuntimeError.
Proof. repeat split; reflexivity. Qed.

(** * Further properties of the module *)

Section Indices.

Context {A : Type}.

Implicit Types (i j k : pyindex A) (v : pyseq A).

(** ** Index equality is an equivalence *)



Lemma index_eqb_trans :
  forall i j k, index_eqb i j = true -> index_eqb j k = true ->
                index_eqb i k = true.
Proof.
  fix IH 1.
  intros [z|c l|c f s x] [z'|c' l'|c' f' s' x'] [z''|c'' l''|c'' f'' s'' x''];
    cbn [index_eqb]; try discriminate.
  - intros H1 H2. apply Z.eqb_eq in H1, H2. apply Z.eqb_eq. congruence.
  - intros H1 H2. apply andb_prop in H1 as [C1 L1], H2 as [C2 L2].
    apply Nat.eqb_eq in C1, C2. subst c' c''. rewrite Nat.eqb_refl.
    cbn [andb]. revert l' l'' L1 L2.
    induction l as [|y l IHl]; intros [|y' l'] [|y'' l'']; try discriminate;
      trivial.
    intros L1 L2. apply andb_prop in L1 as [Y1 L1], L2 as [Y2 L2].
    now rewrite (IH y y' y'' Y1 Y2), (IHl l' l'' L1 L2).
  - intros H1 H2. apply andb_prop in H1 as [C1 X1], H2 as [C2 X2].
    apply Nat.eqb_eq in C1, C2. subst c' c''.
    now rewrite Nat.eqb_refl, (IH x x' x'' X1 X2).
Qed.


(** X2: [==] on indices is transitive. *)
Theorem index_eq_trans i j k :
  py_eq i j = Ok true -> py_eq j k = Ok true -> py_eq i k = Ok true.
Proof.
  unfold py_eq. intros [= H1] [= H2]. now rewrite (index_eqb_trans i j k).
Qed.

(** ** Stepping composite indices of native components *)

Lemma list_comp_succ_Int (generator_stop : bool) fuel (zs : list Z) :
  list_comp (succ (A:=A) generator_stop fuel) (map Int zs)
  = Ok (map Int (map (fun z => z + 1) zs)).
Proof.
  induction zs as [|z zs IH]; [reflexivity|].
  cbn [map list_comp]. rewrite succ_Int, IH. reflexivity.
Qed.

Lemma list_comp_pred_Int (generator_stop : bool) fuel (zs : list Z) :
  list_comp (pred (A:=A) generator_stop fuel) (map Int zs)
  = if existsb (Z.eqb 0) zs then Raise ValueError
    else Ok (map Int (map (fun z => z - 1) zs)).
Proof.
  induction zs as [|z zs IH]; [reflexivity|].
  cbn [map list_comp existsb]. rewrite pred_Int, IH, (Z.eqb_sym 0 z).
  destruct (z =? 0); cbn [bind orb]; trivial.
  destruct (existsb (Z.eqb 0) zs); reflexivity.
Qed.

(** X3: [__pred__] of a composite index steps every native component
    back and raises [ValueError] as soon as one of them is 0, whatever
    the others are; [__succ__] followed by [__pred__] gives the index
    back unless a component is -1. *)
Theorem MapIndex_pred_succ (generator_stop : bool) (fuel fuel' : nat)
    (cls : nat) (zs : list Z) :
  pred (A:=A) generator_stop (S fuel) (MapIndex cls (map Int zs))
  = (if existsb (Z.eqb 0) zs then Raise ValueError
     else Ok (MapIndex cls (map Int (map (fun z => z - 1) zs)))) /\
  (i <- succ (A:=A) generator_stop (S fuel) (MapIndex cls (map Int zs)) ;;
   pred generator_stop (S fuel') i)
  = (if existsb (Z.eqb (-1)) zs then Raise ValueError
     else Ok (MapIndex cls (map Int zs))).
Proof.
  split.
  - cbn [pred]. rewrite list_comp_pred_Int.
    destruct (existsb (Z.eqb 0) zs); reflexivity.
  - cbn [succ]. rewrite list_comp_succ_Int.
    cbn [bind no_method try_except pred]. rewrite list_comp_pred_Int.
    assert (E : existsb (Z.eqb 0) (map (fun z => z + 1) zs)
                = existsb (Z.eqb (-1)) zs).
    { induction zs as [|z zs IH]; [reflexivity|].
      cbn [map existsb]. rewrite IH. f_equal.
      destruct (Z.eqb_spec 0 (z + 1)), (Z.eqb_spec (-1) z); trivial; lia. }
    assert (R : map (fun z => z - 1) (map (fun z => z + 1) zs) = zs).
    { rewrite map_map. rewrite <- (map_id zs) at 2.
      apply map_ext. intros z. lia. }
    rewrite E, R. destruct (existsb (Z.eqb (-1)) zs); reflexivity.
Qed.

(** X4: stepping an index, forward or backward, never changes its class:
    an index of a view stays an index of that view. *)
Theorem stepping_keeps_view (generator_stop : bool) (fuel : nat) v i j :
  index_of v i ->
  succ generator_stop fuel i = Ok j \/ pred generator_stop fuel i = Ok j ->
  index_of v j.
Proof.
  unfold index_of. intros Hi [H|H].
  - apply succ_class in H. congruence.
  - apply pred_class in H. congruence.
Qed.

End Indices.

Section Dispatch.

Context {A : Type}.

Implicit Types (v s : pyseq A) (seqs : list (pyseq A)).

(** ** What [smap] returns *)


Lemma begin_not_bidirectional s :
  is_BidirectionalSequence s = false -> begin s = Raise AttributeError.
Proof. destruct s; try discriminate; reflexivity. Qed.

Lemma begin_bidirectional s :
  is_BidirectionalSequence s = true -> exists b, begin s = Ok b.
Proof. destruct s; try discriminate; intros _; eexists; reflexivity. Qed.

(** X6: constructing a map view directly, over sources one of which is
    not a bidirectional sequence, raises [AttributeError]: [begin] finds
    no [__begin__] on it. *)
Theorem MapBidirectionalView_of_iterator (sequence : bool)
    (func : list A -> outcome A) seqs (st : nat) :
  forallb is_BidirectionalSequence seqs = false ->
  MapBidirectionalView__init__ sequence func seqs st
  = (Raise AttributeError, S st).
Proof.
  intros H. unfold MapBidirectionalView__init__. cbn [new_class].
  assert (E : list_comp begin seqs = Raise AttributeError).
  { induction seqs as [|s seqs IH]; [discriminate|].
    cbn [forallb] in H. cbn [list_comp].
    destruct (is_BidirectionalSequence s) eqn:Hs.
    - destruct (begin_bidirectional s Hs) as [b ->]. cbn [bind].
      now rewrite (IH H).
    - now rewrite (begin_not_bidirectional s Hs). }
  now rewrite E.
Qed.

(** ** What [sfilter] returns *)

(** X7: whatever [sfilter] returns is not a Sequence, even over a source
    that is one: it has no length and cannot be indexed by an integer. *)
Theorem sfilter_not_random_access (generator_stop : bool) (fuel : nat)
    (func : A -> bool) s (st st' : nat) v (z : Z) :
  sfilter generator_stop fuel func s st = (Ok v, st') ->
  is_Sequence v = false /\
  len v = Raise TypeError /\
  (getitem generator_stop v (Int z) = Raise AttributeError \/
   getitem generator_stop v (Int z) = Raise TypeError).
Proof.
  unfold sfilter. destruct (is_Sequence s).
  - intros H. apply FilterBidirectionalView__init__class in H.
    destruct H as (_ & H & _).
    destruct v; try discriminate. repeat split. now left.
  - intros [= <- _]. repeat split. now right.
Qed.

End Dispatch.

Section MapNative2.

Context {A : Type}.

Variables (f : A -> A -> A) (a b : list A).

(** ** Integer indexing of a MapView *)

Lemma list_getitem_negative (T : Type) (l : list T) (z : Z) :
  z < 0 ->
  list_getitem l z
  = if z + Z.of_nat (length l) <? 0 then Raise IndexError
    else match nth_error l (Z.to_nat (z + Z.of_nat (length l))) with
         | Some x => Ok x
         | None => Raise IndexError
         end.
Proof.
  intros Hz. unfold list_getitem.
  destruct (Z.ltb_spec z 0) as [_|H]; [|lia].
  destruct (Z.ltb_spec (z + Z.of_nat (length l)) 0); [reflexivity|].
  destruct (Z.leb_spec (Z.of_nat (length l)) (z + Z.of_nat (length l)));
    [lia | reflexivity].
Qed.

(** X8: a MapView over two native sequences indexed by an integer gives
    what the list of its elements gives at that integer, the
    [IndexError] out of range included; for a negative integer this
    needs the two lengths to be equal. *)
Theorem MapView_integer_index (generator_stop : bool) (st : nat) (z : Z) :
  length a = length b \/ 0 <= z ->
  exists v,
    smap (binary f) [Native a; Native b] st = (Ok v, S st) /\
    getitem generator_stop v (Int z) = list_getitem (elementwise f a b) z.
Proof.
  intros H. eexists. split; [apply smap_native2|].
  cbn [getitem bind].
  destruct (Z.ltb_spec z 0) as [Hneg|Hpos].
  - destruct H as [Hlen|]; [|lia].
    rewrite !list_getitem_negative by trivial.
    rewrite elementwise_length, <- Hlen, Nat.min_id.
    destruct (z + Z.of_nat (length a) <? 0); [reflexivity|].
    rewrite elementwise_nth_error.
    destruct (nth_error a _); cbn [bind]; trivial.
    destruct (nth_error b _); reflexivity.
  - rewrite <- (Z2Nat.id z) by trivial. rewrite !list_getitem_nat.
    rewrite elementwise_nth_error.
    destruct (nth_error a _); cbn [bind]; trivial.
    destruct (nth_error b _); reflexivity.
Qed.

(** ** Backward iteration over sources of different lengths *)

Lemma getitem_map2_at (generator_stop sequence : bool) (cls : nat)
    (begin_ end_ : pyindex A) (k l : nat) :
  getitem generator_stop
    (MapBidirectionalView sequence cls (binary f) [Native a; Native b]
       begin_ end_)
    (MapIndex cls [Int (Z.of_nat k); Int (Z.of_nat l)])
  = match nth_error a k, nth_error b l with
    | Some x, Some y => Ok (f x y)
    | _, _ => Raise IndexError
    end.
Proof.
  cbn [getitem]. rewrite !list_getitem_nat.
  destruct (nth_error a k); cbn [bind]; trivial.
  destruct (nth_error b l); reflexivity.
Qed.

Lemma reversed_loop_map2_ragged (generator_stop sequence : bool)
    (cls : nat) (begin_ end_ : pyindex A) (m ka kb fuel : nat) :
  (ka <= length a)%nat -> (kb <= length b)%nat -> ka <> kb ->
  Nat.min ka kb = m -> (m + 1 < fuel)%nat ->
  list_ (reversed_loop generator_stop fuel
           (MapBidirectionalView sequence cls (binary f)
              [Native a; Native b] begin_ end_)
           (MapIndex cls [Int (Z.of_nat 0); Int (Z.of_nat 0)])
           (MapIndex cls [Int (Z.of_nat ka); Int (Z.of_nat kb)]))
  = Raise ValueError.
Proof.
  revert ka kb fuel.
  induction m as [|m IH]; intros ka kb fuel Ha Hb Hne Hm Hfuel;
    (destruct fuel as [|fuel]; [lia|]);
    cbn [reversed_loop]; rewrite py_ne_map2;
    (destruct fuel as [|fuel]; [lia|]).
  - (* one component is 0: its predecessor is missing *)
    assert (E : (Nat.eqb ka 0 && Nat.eqb kb 0) = false).
    { destruct ka, kb; trivial. lia. }
    rewrite E. cbn [negb pred list_comp]. rewrite !pred_Int.
    destruct ka as [|ka].
    + reflexivity.
    + destruct kb as [|kb]; [|lia].
      destruct (Z.eqb_spec (Z.of_nat (S ka)) 0); [lia|]. reflexivity.
  - destruct ka as [|ka]; [lia|]. destruct kb as [|kb]; [lia|].
    cbn [Nat.eqb andb negb]. rewrite pred_map2, getitem_map2_at.
    destruct (nth_error a ka) as [x|] eqn:Ea.
    2: { apply nth_error_None in Ea. lia. }
    destruct (nth_error b kb) as [y|] eqn:Eb.
    2: { apply nth_error_None in Eb. lia. }
    cbn [list_]. rewrite (IH ka kb (S fuel)); trivial; lia.
Qed.

(** X9: over two native sequences of different lengths the backward
    iteration of the view never ends as a return does: the shorter
    component reaches 0 first and [pred] raises [ValueError]. *)
Theorem reversed_of_ragged_raises (generator_stop : bool) (st fuel : nat) :
  length a <> length b ->
  (Nat.min (length a) (length b) + 1 < fuel)%nat ->
  exists v,
    smap (binary f) [Native a; Native b] st = (Ok v, S st) /\
    list_ (__reversed__ generator_stop fuel v) = Raise ValueError.
Proof.
  intros Hne Hfuel. eexists. split; [apply smap_native2|].
  unfold __reversed__. cbn [__begin__ __end__].
  change (Int (A:=A) 0) with (Int (A:=A) (Z.of_nat 0)).
  now apply (reversed_loop_map2_ragged generator_stop true st _ _
               (Nat.min (length a) (length b))).
Qed.

End MapNative2.

Section Membership.

Context {A : Type}.

Variable eqb : A -> A -> bool.

(** ** [__contains__] *)


(** X11: [value in sequence] answers [True] as soon as an item equal
    to [value] is yielded, whatever the iteration would do after it. *)
Theorem contains_stops_at_first (generator_stop : bool) (fuel : nat)
    (self : pyseq A) (value : A) :
  existsb (fun member => eqb member value)
    (yielded (__iter__ generator_stop fuel self)) = true ->
  __contains__ eqb generator_stop fuel self value = Ok true.
Proof.
  unfold __contains__.
  generalize (__iter__ generator_stop fuel self). intros g.
  induction g as [x rest IH| | |]; cbn [yielded any_eq existsb];
    try discriminate.
  destruct (eqb x value); [reflexivity|]. exact IH.
Qed.

End Membership.

Section FilterSteps.

Context {A : Type}.

Variables (p : A -> bool) (items : list A).

(** ** Where a filter view begins *)

Lemma find_first_passing (b : nat) (x : A) :
  filter p (firstn b items) = [] ->
  nth_error items b = Some x -> p x = true ->
  find p items = Some x.
Proof.
  revert b. induction items as [|y l IH]; intros [|b]; cbn; try discriminate.
  - intros _ [= ->] ->. reflexivity.
  - destruct (p y); [discriminate|]. apply IH.
Qed.

(** X12: when some item of a native sequence passes, the [begin] of the
    filter view that [sfilter] returns is at the first item that passes. *)
Theorem sfilter_begins_at_first (generator_stop : bool) (st fuel : nat) :
  existsb p items = true ->
  (length items + 2 <= fuel)%nat ->
  exists v b x,
    sfilter generator_stop fuel p (Native items) st = (Ok v, S st) /\
    begin v = Ok b /\
    getitem generator_stop v b = Ok x /\
    find p items = Some x.
Proof.
  intros Hex Hfuel.
  destruct (sfilter_first_match generator_stop p items st fuel Hex Hfuel)
    as (b & xb & Hb & Pb & Hfirst & ->).
  do 3 eexists. split; [reflexivity|]. split; [reflexivity|].
  cbn [getitem]. rewrite list_getitem_nat, Hb. split; [reflexivity|].
  now apply (find_first_passing b).
Qed.

(** ** Forward then backward in a filter view *)

Lemma filter_firstn_lt (k k' : nat) (x : A) :
  nth_error items k = Some x -> p x = true -> (k < k')%nat ->
  (length (filter p (firstn k items))
   < length (filter p (firstn k' items)))%nat.
Proof.
  intros Hk Px Hlt.
  rewrite <- (firstn_skipn (S k) (firstn k' items)).
  rewrite firstn_firstn, Nat.min_l by lia.
  rewrite (firstn_nth_error _ _ _ _ Hk), !filter_app, !length_app.
  cbn [filter]. rewrite Px. cbn [length]. lia.
Qed.

(** X13: in a filter view over a native sequence, from a position whose
    item passes and which is not the last such position, [succ] goes to
    the next position whose item passes and [pred] comes back from it. *)
Theorem FilterIndex_succ_pred (generator_stop : bool) (cls fuel k : nat)
    (x : A) :
  nth_error items k = Some x -> p x = true ->
  existsb p (skipn (S k) items) = true ->
  (length items < fuel)%nat ->
  exists k' y,
    (k < k')%nat /\ nth_error items k' = Some y /\ p y = true /\
    succ generator_stop fuel
      (FilterIndex cls p (Native items) (Int (Z.of_nat k)))
    = Ok (FilterIndex cls p (Native items) (Int (Z.of_nat k'))) /\
    pred generator_stop fuel
      (FilterIndex cls p (Native items) (Int (Z.of_nat k')))
    = Ok (FilterIndex cls p (Native items) (Int (Z.of_nat k))).
Proof.
  intros Hk Px Hex Hfuel.
  assert (k < length items)%nat by (apply nth_error_Some; congruence).
  destruct fuel as [|fuel]; [lia|].
  rewrite succ_filter.
  destruct (Filter_succ_loop_native p items cls generator_stop fuel k)
    as [[_ Hnil] | (k' & y & Hlt & Hy & Py & -> & _ & Hf)]; try lia.
  { now apply existsb_filter_nil in Hex. }
  assert (k' < length items)%nat by (apply nth_error_Some; congruence).
  exists k', y. repeat split; trivial.
  rewrite pred_filter.
  destruct (Filter_pred_loop_native p items cls generator_stop fuel k')
    as (k'' & z & Hlt' & Hz & Pz & -> & Hf'); try lia.
  { exists k, x. auto. }
  cbn [no_method try_except]. do 3 f_equal.
  rewrite (firstn_nth_error _ _ _ _ Hk), filter_app in Hf.
  cbn [filter] in Hf. rewrite Px in Hf. rewrite Hf in Hf'.
  apply (f_equal (@length A)) in Hf'. rewrite !length_app in Hf'.
  cbn [length] in Hf'.
  destruct (Nat.lt_trichotomy k k'') as [L|[E|L]].
  - pose proof (filter_firstn_lt k k'' x Hk Px L). lia.
  - lia.
  - pose proof (filter_firstn_lt k'' k z Hz Pz L). lia.
Qed.

End FilterSteps.

Section MapNative.

Context {A : Type}.

(** ** Rows *)

Lemma row_cons_None (k : nat) (l : list A) (ls : list (list A)) :
  (length l <= k)%nat -> row k (l :: ls) = None.
Proof.
  intros H. cbn [row]. apply nth_error_None in H. now rewrite H.
Qed.

Lemma row_equal_lengths (n k : nat) (ls : list (list A)) :
  Forall (fun l => length l = n) ls -> (k < n)%nat -> row k ls <> None.
Proof.
  intros Hall Hk. induction Hall as [|l ls Hl _ IH]; [discriminate|].
  cbn [row]. destruct (nth_error l k) eqn:E.
  - destruct (row k ls); [discriminate | now elim IH].
  - apply nth_error_None in E. lia.
Qed.

Lemma row_downward (k : nat) (ls : list (list A)) :
  row k ls = None -> row (S k) ls = None.
Proof.
  induction ls as [|l ls IH]; [discriminate|]. cbn [row].
  destruct (nth_error l k) eqn:E.
  - destruct (row k ls); [discriminate|]. intros _. rewrite IH by trivial.
    now destruct (nth_error l (S k)).
  - intros _. apply nth_error_None in E.
    assert (E' : nth_error l (S k) = None) by (apply nth_error_None; lia).
    now rewrite E'.
Qed.

Lemma rows_from_nth_error (d k j : nat) (ls : list (list A)) :
  (forall i, (k + d <= i)%nat -> row i ls = None) ->
  nth_error (rows_from d k ls) j = row (k + j) ls.
Proof.
  revert k j. induction d as [|d IH]; intros k j Hend; cbn [rows_from].
  - rewrite (Hend (k + j)%nat) by lia. now destruct j.
  - destruct (row k ls) as [r|] eqn:E.
    + destruct j as [|j]; cbn [nth_error].
      * now rewrite Nat.add_0_r.
      * rewrite IH by (intros i Hi; apply Hend; lia).
        f_equal. lia.
    + assert (N : forall j, row (k + j) ls = None).
      { clear -E. induction j as [|j IHj].
        - now rewrite Nat.add_0_r.
        - rewrite Nat.add_succ_r. now apply row_downward. }
      rewrite N. now destruct j.
Qed.

Lemma rows_nth_error (k : nat) (l : list A) (ls : list (list A)) :
  nth_error (rows (l :: ls)) k = row k (l :: ls).
Proof.
  unfold rows. rewrite rows_from_nth_error; [reflexivity|].
  intros i Hi. apply row_cons_None. lia.
Qed.

Lemma rows_from_snoc (d k : nat) (r : list A) (ls : list (list A)) :
  (forall j, (j < d)%nat -> row (k + j) ls <> None) ->
  row (k + d) ls = Some r ->
  rows_from (S d) k ls = rows_from d k ls ++ [r].
Proof.
  revert k. induction d as [|d IH]; intros k Hdef Hr.
  - rewrite Nat.add_0_r in Hr. cbn [rows_from]. now rewrite Hr.
  - change (rows_from (S (S d)) k ls)
      with (match row k ls with
            | Some r0 => r0 :: rows_from (S d) (S k) ls
            | None => []
            end).
    cbn [rows_from].
    destruct (row k ls) as [r0|] eqn:E.
    2: { elim (Hdef 0%nat); [lia | now rewrite Nat.add_0_r]. }
    cbn [app]. f_equal.
    change (match row (S k) ls with
            | Some r1 => r1 :: rows_from d (S (S k)) ls
            | None => []
            end) with (rows_from (S d) (S k) ls).
    apply IH.
    + intros j Hj. replace (S k + j)%nat with (k + S j)%nat by lia.
      apply Hdef. lia.
    + now replace (S k + d)%nat with (k + S d)%nat by lia.
Qed.

(** ** Map views over native sequences *)

Variables (func : list A -> outcome A) (ls : list (list A)).
Variables (sequence : bool) (cls : nat) (begin_ end_ : pyindex A).

Let view : pyseq A :=
  MapBidirectionalView sequence cls func (map Native ls) begin_ end_.

(** the composite index whose components are the integers [u l] *)
Let at_ (u : list A -> nat) : pyindex A :=
  MapIndex cls (map (fun l => Int (Z.of_nat (u l))) ls).

Lemma getitem_mapN (generator_stop : bool) (k : nat) :
  getitem generator_stop view (at_ (fun _ => k))
  = match row k ls with Some r => func r | None => Raise IndexError end.
Proof.
  subst view at_. cbn beta. cbn [getitem].
  match goal with
  | |- bind ?c _ = _ =>
      assert (E : c = match row k ls with
                      | Some r => Ok r
                      | None => Raise IndexError
                      end)
  end.
  { clear func. induction ls as [|l ls' IH]; [reflexivity|].
    cbn [map getitem row]. rewrite list_getitem_nat.
    destruct (nth_error l k) as [x|]; [|reflexivity].
    cbn [list_]. rewrite IH. now destruct (row k ls'). }
  rewrite E. now destruct (row k ls).
Qed.

Lemma succ_mapN (generator_stop : bool) (fuel : nat) (u : list A -> nat) :
  succ generator_stop (S fuel) (at_ u) = Ok (at_ (fun l => S (u l))).
Proof.
  subst at_. clear view. cbn [succ].
  assert (E : list_comp (succ (A:=A) generator_stop fuel)
                (map (fun l => Int (Z.of_nat (u l))) ls)
              = Ok (map (fun l => Int (Z.of_nat (S (u l)))) ls)).
  { induction ls as [|l ls' IH]; [reflexivity|].
    cbn [map list_comp]. rewrite succ_Int, IH. cbn [bind].
    do 3 f_equal. lia. }
  now rewrite E.
Qed.

Lemma pred_mapN (generator_stop : bool) (fuel : nat) (u : list A -> nat) :
  pred generator_stop (S fuel) (at_ (fun l => S (u l))) = Ok (at_ u).
Proof.
  subst at_. clear view. cbn [pred].
  assert (E : list_comp (pred (A:=A) generator_stop fuel)
                (map (fun l => Int (Z.of_nat (S (u l)))) ls)
              = Ok (map (fun l => Int (Z.of_nat (u l))) ls)).
  { induction ls as [|l ls' IH]; [reflexivity|].
    cbn [map list_comp]. rewrite pred_Int, IH.
    destruct (Z.eqb_spec (Z.of_nat (S (u l))) 0); [lia|]. cbn [bind].
    do 3 f_equal. lia. }
  now rewrite E.
Qed.

Lemma index_eqb_mapN (u w : list A -> nat) :
  index_eqb (at_ u) (at_ w) = forallb (fun l => Nat.eqb (u l) (w l)) ls.
Proof.
  subst at_. clear view. cbn [index_eqb]. rewrite Nat.eqb_refl. cbn [andb].
  induction ls as [|l ls' IH]; [reflexivity|].
  cbn [map forallb]. rewrite IH. f_equal. cbn [index_eqb].
  destruct (Z.eqb_spec (Z.of_nat (u l)) (Z.of_nat (w l))) as [E1|N1],
           (Nat.eqb_spec (u l) (w l)) as [E2|N2]; trivial.
  - apply Nat2Z.inj in E1. contradiction.
  - rewrite E2 in N1. now elim N1.
Qed.

(** *** The loops, for a function that returns and at least one source *)

Variables (g : list A -> A) (l0 : list A) (ls0 : list (list A)).
Hypothesis Hfunc : forall r, func r = Ok (g r).
Hypothesis Hls : ls = l0 :: ls0.

Let end_at : pyindex A := at_ (fun l => length l).

Lemma py_ne_mapN_begin (k : nat) :
  py_ne (at_ (fun _ => k)) (at_ (fun _ => 0%nat)) = Ok (negb (Nat.eqb k 0)).
Proof.
  unfold py_ne, py_eq. rewrite index_eqb_mapN, Hls. cbn [forallb bind].
  destruct (Nat.eqb k 0); [|reflexivity].
  assert (E : forall l : list (list A), forallb (fun _ => true) l = true)
    by (induction l; auto).
  now rewrite E.
Qed.

Lemma py_ne_mapN_end_lt (k : nat) :
  (k < length l0)%nat -> py_ne (at_ (fun _ => k)) end_at = Ok true.
Proof.
  intros Hk. unfold py_ne, py_eq, end_at.
  rewrite index_eqb_mapN, Hls. cbn [forallb bind].
  destruct (Nat.eqb_spec k (length l0)); [lia | reflexivity].
Qed.

Lemma py_ne_mapN_end_equal (n : nat) :
  Forall (fun l => length l = n) ls ->
  py_ne (at_ (fun _ => n)) end_at = Ok false.
Proof.
  intros Hall. unfold py_ne, py_eq, end_at. rewrite index_eqb_mapN.
  assert (E : forallb (fun l => Nat.eqb n (length l)) ls = true).
  { apply forallb_forall. intros l Hl.
    rewrite Forall_forall in Hall. rewrite (Hall l Hl).
    apply Nat.eqb_refl. }
  now rewrite E.
Qed.

Lemma iter_loop_mapN (generator_stop : bool) (d k fuel : nat) :
  generator_stop = false \/ Forall (fun l => length l = length l0) ls ->
  (k + d = length l0)%nat ->
  (d < fuel)%nat ->
  list_ (iter_loop generator_stop fuel view (at_ (fun _ => k)) end_at)
  = Ok (map g (rows_from d k ls)).
Proof.
  intros Hgs. revert k fuel.
  induction d as [|d IH]; intros k [|fuel] Hk Hfuel; try lia;
    cbn [iter_loop rows_from].
  - (* past the last item of the first source *)
    rewrite Nat.add_0_r in Hk. subst k.
    destruct Hgs as [-> | Hall].
    + destruct (py_ne (at_ (fun _ => length l0)) end_at) as [[|]| |] eqn:E;
        try discriminate; trivial.
      rewrite getitem_mapN, Hls, row_cons_None by lia. reflexivity.
    + now rewrite (py_ne_mapN_end_equal _ Hall).
  - rewrite py_ne_mapN_end_lt by lia. rewrite getitem_mapN.
    destruct (row k ls) as [r|] eqn:E.
    + rewrite Hfunc. destruct fuel as [|fuel]; [lia|].
      rewrite succ_mapN. cbn [list_ map].
      rewrite IH by lia. reflexivity.
    + destruct Hgs as [-> | Hall]; [reflexivity|].
      elim (row_equal_lengths (length l0) k ls Hall); [lia | trivial].
Qed.

Lemma reversed_loop_mapN (generator_stop : bool) (k fuel : nat) :
  Forall (fun l => length l = length l0) ls ->
  (k <= length l0)%nat ->
  (k < fuel)%nat ->
  list_ (reversed_loop generator_stop fuel view
           (at_ (fun _ => 0%nat)) (at_ (fun _ => k)))
  = Ok (rev (map g (rows_from k 0 ls))).
Proof.
  intros Hall. revert fuel.
  induction k as [|k IH]; intros [|fuel] Hk Hfuel; try lia;
    cbn [reversed_loop]; rewrite py_ne_mapN_begin.
  - reflexivity.
  - cbn [Nat.eqb negb]. destruct fuel as [|fuel]; [lia|].
    rewrite pred_mapN, getitem_mapN.
    destruct (row k ls) as [r|] eqn:E.
    2: { elim (row_equal_lengths (length l0) k ls Hall); [lia | trivial]. }
    rewrite Hfunc. cbn [list_]. rewrite IH by lia. cbn [bind].
    rewrite (rows_from_snoc k 0 r ls); trivial.
    + now rewrite map_app, rev_app_distr.
    + intros j Hj. apply (row_equal_lengths (length l0)); trivial. lia.
Qed.

End MapNative.

Section MapNativeSources.

Context {A : Type}.

Lemma smap_natives (func : list A -> outcome A) (ls : list (list A))
    (st : nat) :
  smap func (map Native ls) st
  = (Ok (MapBidirectionalView true st func (map Native ls)
           (MapIndex st (map (fun _ => Int (Z.of_nat 0)) ls))
           (MapIndex st (map (fun l => Int (Z.of_nat (length l))) ls))),
     S st).
Proof.
  assert (Hseq : forall xs : list (list A),
             forallb is_Sequence (map Native xs) = true)
    by (induction xs; simpl; auto).
  assert (Hb : forall xs : list (list A),
             list_comp begin (map Native xs)
             = Ok (map (fun _ => Int (Z.of_nat 0)) xs)).
  { induction xs as [|l xs IH]; [reflexivity|].
    cbn [map list_comp]. rewrite begin_Native, IH. reflexivity. }
  assert (He : forall xs : list (list A),
             list_comp end_ (map Native xs)
             = Ok (map (fun l => Int (Z.of_nat (length l))) xs)).
  { induction xs as [|l xs IH]; [reflexivity|].
    cbn [map list_comp]. rewrite end_Native, IH. reflexivity. }
  unfold smap, MapBidirectionalView__init__.
  rewrite Hseq, Hb, He. reflexivity.
Qed.

(** X14: for a function that returns and any number (at least one) of
    native sequences, the forward iteration of the view that [smap]
    returns yields the function applied to the rows [zip( *sequences)], as
    many as the shortest sequence has items; when all the lengths are
    equal this holds under [generator_stop] too, and the backward
    iteration yields the same list reversed. *)
Theorem smap_of_native_sequences (g : list A -> A) (l0 : list A)
    (ls0 : list (list A)) (st fuel : nat) :
  (length l0 < fuel)%nat ->
  exists v,
    smap (fun r => Ok (g r)) (map Native (l0 :: ls0)) st = (Ok v, S st) /\
    list_ (__iter__ false fuel v) = Ok (map g (rows (l0 :: ls0))) /\
    (Forall (fun l => length l = length l0) ls0 ->
     forall generator_stop,
       list_ (__iter__ generator_stop fuel v)
       = Ok (map g (rows (l0 :: ls0))) /\
       list_ (__reversed__ generator_stop fuel v)
       = Ok (rev (map g (rows (l0 :: ls0))))) /\
    (forall k, nth_error (rows (l0 :: ls0)) k = row k (l0 :: ls0)).
Proof.
  intros Hfuel. eexists. split; [apply smap_natives|].
  unfold __iter__, __reversed__. cbn [__begin__ __end__]. unfold rows.
  split; [|split].
  - apply (iter_loop_mapN _ (l0 :: ls0) true st _ _ g l0 ls0); auto; lia.
  - intros Hall gs.
    assert (Hall' : Forall (fun l => length l = length l0) (l0 :: ls0))
      by (constructor; trivial).
    split.
    + apply (iter_loop_mapN _ (l0 :: ls0) true st _ _ g l0 ls0); auto; lia.
    + assert (E : map (fun l => Int (A:=A) (Z.of_nat (length l))) (l0 :: ls0)
                  = map (fun _ => Int (Z.of_nat (length l0))) (l0 :: ls0)).
      { apply map_ext_in. intros l Hl. rewrite Forall_forall in Hall'.
        now rewrite (Hall' l Hl). }
      rewrite E.
      apply (reversed_loop_mapN _ (l0 :: ls0) true st _ _ g l0 ls0); auto.
  - intros k. apply rows_nth_error.
Qed.

End MapNativeSources.

(** ** Filter views over a source that is stepped one item at a time *)

Section FilterLinear.

Context {A : Type}.

(** A source [src] whose positions are [ix 0], [ix 1], ... with the items
    [xs], as a native sequence and a MapView over native sequences of one
    length are. *)
Variables (src : pyseq A) (ix : nat -> pyindex A) (xs : list A) (c0 : nat).

Hypothesis Hsucc :
  forall generator_stop fuel k,
    (c0 <= fuel)%nat -> succ generator_stop fuel (ix k) = Ok (ix (S k)).
Hypothesis Hpred :
  forall generator_stop fuel k,
    (c0 <= fuel)%nat -> pred generator_stop fuel (ix (S k)) = Ok (ix k).
Hypothesis Hget :
  forall generator_stop k,
    getitem generator_stop src (ix k)
    = match nth_error xs k with
      | Some x => Ok x
      | None => Raise IndexError
      end.
Hypothesis Heq : forall k l, index_eqb (ix k) (ix l) = Nat.eqb k l.

Variables (p : A -> bool) (cls : nat).

Let fi (k : nat) : pyindex A := FilterIndex cls p src (ix k).

Lemma py_ne_linear (k l : nat) : py_ne (fi k) (fi l) = Ok (negb (Nat.eqb k l)).
Proof.
  unfold py_ne, py_eq, fi. cbn [index_eqb bind].
  now rewrite Nat.eqb_refl, Heq.
Qed.

Lemma succ_linear (generator_stop : bool) (fuel k : nat) :
  succ generator_stop (S fuel) (fi k)
  = no_method (Filter_succ_loop generator_stop fuel cls p src (ix k)).
Proof. reflexivity. Qed.

Lemma pred_linear (generator_stop : bool) (fuel k : nat) :
  pred generator_stop (S fuel) (fi k)
  = no_method (Filter_pred_loop generator_stop fuel cls p src (ix k)).
Proof. reflexivity. Qed.

Lemma Filter_succ_loop_linear (generator_stop : bool) (fuel k : nat) :
  (c0 + 1 <= fuel)%nat ->
  (c0 + length xs <= k + fuel)%nat ->
  (Filter_succ_loop generator_stop fuel cls p src (ix k) = Raise IndexError /\
   filter p (skipn (S k) xs) = [])
  \/
  (exists k' x,
     (k < k')%nat /\ nth_error xs k' = Some x /\ p x = true /\
     Filter_succ_loop generator_stop fuel cls p src (ix k) = Ok (fi k') /\
     filter p (skipn (S k) xs) = filter p (skipn k' xs) /\
     filter p (firstn k' xs) = filter p (firstn (S k) xs)).
Proof.
  revert k. induction fuel as [|fuel IH]; intros k H1 Hlen; [lia|].
  cbn [Filter_succ_loop]. rewrite Hsucc by lia. cbn [bind]. rewrite Hget.
  destruct (nth_error xs (S k)) as [x|] eqn:E; cbn [bind].
  2: { left. split; trivial.
       rewrite skipn_all2 by (now apply nth_error_None). reflexivity. }
  assert (S k < length xs)%nat by (apply nth_error_Some; congruence).
  destruct (p x) eqn:Px.
  - right. exists (S k), x. repeat split; trivial. lia.
  - rewrite (skipn_nth_error _ _ _ _ E). cbn [filter]. rewrite Px.
    destruct (IH (S k)) as [[-> ->] | (k' & y & Hk & Hy & Py & -> & -> & Hf)];
      try lia.
    + now left.
    + right. exists k', y. repeat split; trivial; try lia.
      rewrite Hf, (firstn_nth_error _ _ _ _ E), filter_app. cbn [filter].
      rewrite Px. now rewrite app_nil_r.
Qed.

Lemma Filter_pred_loop_linear (generator_stop : bool) (fuel k : nat) :
  (c0 + k <= fuel)%nat ->
  (k <= length xs)%nat ->
  (exists m y, (m < k)%nat /\ nth_error xs m = Some y /\ p y = true) ->
  exists k' x,
    (k' < k)%nat /\ nth_error xs k' = Some x /\ p x = true /\
    Filter_pred_loop generator_stop fuel cls p src (ix k) = Ok (fi k') /\
    filter p (firstn k xs) = filter p (firstn k' xs) ++ [x].
Proof.
  revert k.
  induction fuel as [|fuel IH]; intros k Hfuel Hlen (m & y & Hm & Hy & Py);
    [lia|].
  destruct k as [|k]; [lia|].
  cbn [Filter_pred_loop]. rewrite Hpred by lia. cbn [bind]. rewrite Hget.
  destruct (nth_error xs k) as [x|] eqn:E.
  2: { apply nth_error_None in E. lia. }
  cbn [bind]. rewrite (firstn_nth_error _ _ _ _ E), filter_app. cbn [filter].
  destruct (p x) eqn:Px.
  - exists k, x. repeat split; trivial. lia.
  - assert (m <> k) by congruence.
    destruct (IH k) as (k' & z & Hk & Hz & Pz & -> & ->); try lia.
    { exists m, y. repeat split; trivial. lia. }
    exists k', z. repeat split; trivial; try lia.
    now rewrite app_nil_r.
Qed.

Let view (begin_ : pyindex A) : pyseq A :=
  FilterBidirectionalView cls p src begin_ (fi (length xs)).

Lemma getitem_linear (generator_stop : bool) (begin_ : pyindex A) (k : nat) :
  getitem generator_stop (view begin_) (fi k)
  = match nth_error xs k with Some x => Ok x | None => Raise IndexError end.
Proof. exact (Hget generator_stop k). Qed.

Lemma iter_loop_linear (begin_ : pyindex A) (n k fuel : nat) (x : A) :
  nth_error xs k = Some x -> p x = true ->
  (length xs - k <= n)%nat ->
  (c0 + length xs + 2 <= k + fuel)%nat ->
  list_ (iter_loop false fuel (view begin_) (fi k) (fi (length xs)))
  = Ok (filter p (skipn k xs)).
Proof.
  revert k fuel x.
  induction n as [|n IH]; intros k fuel x Hk Px Hn Hfuel;
    assert (k < length xs)%nat by (apply nth_error_Some; congruence);
    [lia|].
  destruct fuel as [|fuel]; [lia|].
  cbn [iter_loop]. rewrite py_ne_linear.
  destruct (Nat.eqb_spec k (length xs)); [lia|]. cbn [negb].
  destruct fuel as [|fuel]; [lia|].
  rewrite getitem_linear, Hk, succ_linear.
  rewrite (skipn_nth_error _ _ _ _ Hk). cbn [filter]. rewrite Px.
  destruct (Filter_succ_loop_linear false fuel k)
    as [[-> ->] | (k' & y & Hlt & Hy & Py & -> & -> & _)]; try lia.
  - reflexivity.
  - cbn [no_method try_except list_].
    assert (k' < length xs)%nat by (apply nth_error_Some; congruence).
    rewrite (IH k' (S fuel) y); trivial; try lia.
Qed.

Lemma reversed_loop_linear (begin_ : pyindex A) (generator_stop : bool)
    (b : nat) (xb : A) (n k fuel : nat) :
  nth_error xs b = Some xb -> p xb = true ->
  filter p (firstn b xs) = [] ->
  (b <= k)%nat -> (k <= n)%nat -> (k <= length xs)%nat ->
  (c0 + k + 2 <= fuel)%nat ->
  list_ (reversed_loop generator_stop fuel (view begin_) (fi b) (fi k))
  = Ok (rev (filter p (firstn k xs))).
Proof.
  intros Hb Pb Hfirst. revert k fuel.
  induction n as [|n IH]; intros k fuel Hbk Hn Hlen Hfuel.
  - assert (k = 0 /\ b = 0)%nat as [-> ->] by lia.
    destruct fuel as [|fuel]; [lia|].
    cbn [reversed_loop]. rewrite py_ne_linear. reflexivity.
  - destruct fuel as [|fuel]; [lia|].
    cbn [reversed_loop]. rewrite py_ne_linear.
    destruct (Nat.eqb_spec k b) as [->|Hne]; cbn [negb].
    + now rewrite Hfirst.
    + destruct fuel as [|fuel]; [lia|]. rewrite pred_linear.
      destruct (Filter_pred_loop_linear generator_stop fuel k)
        as (k' & x & Hlt & Hx & Px & -> & ->); try lia.
      { exists b, xb. repeat split; trivial. lia. }
      cbn [no_method try_except].
      rewrite getitem_linear, Hx. cbn [list_].
      rewrite (IH k' (S fuel)); try lia.
      * cbn [bind]. now rewrite rev_app_distr.
      * now apply (first_passing p xs b k' x).
Qed.

(** *** Construction *)

Hypothesis Hbegin : begin src = Ok (ix 0).
Hypothesis Hend : end_ src = Ok (ix (length xs)).

Lemma init_linear_first_match (generator_stop : bool) (fuel : nat) :
  existsb p xs = true ->
  (c0 + length xs + 2 <= fuel)%nat ->
  exists b xb,
    nth_error xs b = Some xb /\ p xb = true /\
    filter p (firstn b xs) = [] /\
    FilterBidirectionalView__init__ generator_stop fuel p src cls
    = (Ok (FilterBidirectionalView cls p src (fi b) (fi (length xs))),
       S cls).
Proof.
  intros Hex Hfuel. apply existsb_filter_nil in Hex.
  unfold FilterBidirectionalView__init__. cbn [new_class].
  rewrite Hbegin, Hend. cbn [bind]. rewrite Hget.
  destruct (nth_error xs 0) as [x0|] eqn:E0.
  2: { apply nth_error_None in E0. elim Hex.
       destruct xs; [reflexivity | cbn [length] in E0; lia]. }
  cbn [bind].
  pose proof (skipn_nth_error _ _ _ _ E0) as Hskip.
  cbn [skipn] in Hskip.
  destruct (p x0) eqn:P0; cbn [negb].
  - exists 0%nat, x0. repeat split; trivial.
  - destruct fuel as [|fuel']; [lia|].
    change (succ generator_stop (S fuel') (FilterIndex cls p src (ix 0)))
      with (succ generator_stop (S fuel') (fi 0)).
    rewrite succ_linear.
    destruct (Filter_succ_loop_linear generator_stop fuel' 0)
      as [[_ Hnil] | (k' & y & _ & Hy & Py & -> & _ & Hk')]; try lia.
    + elim Hex. rewrite Hskip. cbn [filter]. now rewrite P0.
    + exists k', y. repeat split; trivial.
      rewrite Hk'.
      replace (firstn 1 xs) with [x0]
        by (destruct xs; [discriminate | now injection E0 as ->]).
      cbn [filter]. now rewrite P0.
Qed.

Lemma init_linear_no_match (generator_stop : bool) (fuel : nat) :
  existsb p xs = false ->
  (c0 + length xs + 1 <= fuel)%nat ->
  FilterBidirectionalView__init__ generator_stop fuel p src cls
  = (Raise IndexError, S cls).
Proof.
  intros Hex Hfuel.
  assert (Hp : forall x, In x xs -> p x = false).
  { intros x Hin. destruct (p x) eqn:Px; trivial.
    assert (existsb p xs = true) by (apply existsb_exists; eauto).
    congruence. }
  unfold FilterBidirectionalView__init__. cbn [new_class].
  rewrite Hbegin. cbn [bind]. rewrite Hget.
  destruct (nth_error xs 0) as [x0|] eqn:E0; [|reflexivity].
  assert (0 < length xs)%nat by (apply nth_error_Some; congruence).
  cbn [bind]. rewrite (Hp x0 (nth_error_In _ _ E0)). cbn [negb].
  destruct fuel as [|fuel']; [lia|].
  change (succ generator_stop (S fuel') (FilterIndex cls p src (ix 0)))
    with (succ generator_stop (S fuel') (fi 0)).
  rewrite succ_linear.
  destruct (Filter_succ_loop_linear generator_stop fuel' 0)
    as [[-> _] | (k' & y & _ & Hy & Py & _)]; try lia.
  - reflexivity.
  - rewrite (Hp y (nth_error_In _ _ Hy)) in Py. discriminate.
Qed.

Lemma init_linear (generator_stop : bool) (fuel : nat) :
  (c0 + length xs + 2 <= fuel)%nat ->
  if existsb p xs then
    exists v,
      FilterBidirectionalView__init__ generator_stop fuel p src cls
      = (Ok v, S cls) /\
      list_ (__iter__ false fuel v) = Ok (filter p xs) /\
      list_ (__reversed__ generator_stop fuel v) = Ok (rev (filter p xs))
  else
    FilterBidirectionalView__init__ generator_stop fuel p src cls
    = (Raise IndexError, S cls).
Proof.
  intros Hfuel. destruct (existsb p xs) eqn:Hex.
  - destruct (init_linear_first_match generator_stop fuel Hex Hfuel)
      as (b & xb & Hb & Pb & Hfirst & ->).
    eexists. split; [reflexivity|].
    unfold __iter__, __reversed__. cbn [__begin__ __end__].
    assert (b < length xs)%nat by (apply nth_error_Some; congruence).
    split.
    + etransitivity.
      { apply (iter_loop_linear (fi b) (length xs) b fuel xb);
          trivial; lia. }
      rewrite <- (firstn_skipn b xs) at 2.
      now rewrite filter_app, Hfirst.
    + etransitivity.
      { apply (reversed_loop_linear (fi b) generator_stop b xb
                 (length xs) (length xs) fuel); trivial; lia. }
      now rewrite firstn_all.
  - apply init_linear_no_match; trivial. lia.
Qed.

End FilterLinear.

(** ** A filter view over a map view *)

Section FilterOverMap.

Context {A : Type}.

Lemma rows_from_length (d k : nat) (ls : list (list A)) :
  (forall j, (j < d)%nat -> row (k + j) ls <> None) ->
  length (rows_from d k ls) = d.
Proof.
  revert k. induction d as [|d IH]; intros k Hdef; [reflexivity|].
  cbn [rows_from]. destruct (row k ls) as [r|] eqn:E.
  - cbn [length]. f_equal. apply IH. intros j Hj.
    replace (S k + j)%nat with (k + S j)%nat by lia. apply Hdef. lia.
  - elim (Hdef 0%nat); [lia | now rewrite Nat.add_0_r].
Qed.

Lemma rows_length_equal (l0 : list A) (ls0 : list (list A)) :
  Forall (fun l => length l = length l0) ls0 ->
  length (rows (l0 :: ls0)) = length l0.
Proof.
  intros Hall. unfold rows. apply rows_from_length. intros j Hj.
  apply (row_equal_lengths (length l0)); [now constructor | lia].
Qed.

(** X15: a filter view over the map view of native sequences of one
    length (the function returning): when some mapped item passes, its
    forward iteration yields the mapped items that pass, in order, and
    its backward iteration the same list reversed; when none passes, its
    construction raises [IndexError]. *)
Theorem sfilter_of_smap (g : list A -> A) (p : A -> bool) (l0 : list A)
    (ls0 : list (list A)) (generator_stop : bool) (st fuel : nat) :
  Forall (fun l => length l = length l0) ls0 ->
  (length l0 + 3 <= fuel)%nat ->
  exists mv,
    smap (fun r => Ok (g r)) (map Native (l0 :: ls0)) st = (Ok mv, S st) /\
    if existsb p (map g (rows (l0 :: ls0))) then
      exists fv,
        sfilter generator_stop fuel p mv (S st) = (Ok fv, S (S st)) /\
        list_ (__iter__ false fuel fv)
        = Ok (filter p (map g (rows (l0 :: ls0)))) /\
        list_ (__reversed__ generator_stop fuel fv)
        = Ok (rev (filter p (map g (rows (l0 :: ls0)))))
    else
      sfilter generator_stop fuel p mv (S st) = (Raise IndexError, S (S st)).
Proof.
  intros Hall Hfuel. eexists. split; [apply smap_natives|].
  set (ls := l0 :: ls0).
  assert (Hall' : Forall (fun l => length l = length l0) ls)
    by (constructor; trivial).
  assert (Hlen : length (map g (rows ls)) = length l0)
    by (rewrite length_map; now apply rows_length_equal).
  set (src := MapBidirectionalView true st (fun r => Ok (g r))
                (map Native ls)
                (MapIndex st (map (fun _ => Int (Z.of_nat 0)) ls))
                (MapIndex st (map (fun l => Int (Z.of_nat (length l))) ls))).
  set (ix := fun k : nat =>
               MapIndex (A:=A) st (map (fun _ => Int (Z.of_nat k)) ls)).
  change (sfilter generator_stop fuel p src (S st))
    with (FilterBidirectionalView__init__ generator_stop fuel p src (S st)).
  apply (init_linear src ix (map g (rows ls)) 1).
  - intros gs [|f] k Hf; [lia|].
    exact (succ_mapN ls st gs f (fun _ => k)).
  - intros gs [|f] k Hf; [lia|].
    exact (pred_mapN ls st gs f (fun _ => k)).
  - intros gs k. unfold src, ix. rewrite getitem_mapN, nth_error_map.
    unfold ls. rewrite rows_nth_error. now destruct (row k (l0 :: ls0)).
  - intros k l.
    etransitivity.
    { exact (index_eqb_mapN ls st (fun _ => k) (fun _ => l)). }
    unfold ls. cbn [forallb]. destruct (Nat.eqb k l); [|reflexivity].
    assert (E : forall xs : list (list A), forallb (fun _ => true) xs = true)
      by (induction xs; auto).
    now rewrite E.
  - reflexivity.
  - rewrite Hlen. unfold src, ix.
    assert (E : map (fun l => Int (A:=A) (Z.of_nat (length l))) ls
                = map (fun _ => Int (Z.of_nat (length l0))) ls).
    { apply map_ext_in. intros l Hl. rewrite Forall_forall in Hall'.
      now rewrite (Hall' l Hl). }
    rewrite <- E. reflexivity.
  - rewrite Hlen. lia.
Qed.

End FilterOverMap.

(** ** A map view over a filter view *)

Section MapOverFilter.

Context {A : Type}.

Variables (g : A -> A) (p : A -> bool) (items : list A).
Variables (sequence : bool) (cf cm : nat).

Let fi (k : nat) : pyindex A :=
  FilterIndex cf p (Native items) (Int (Z.of_nat k)).

Let mi (k : nat) : pyindex A := MapIndex cm [fi k].

Let view (fb mb me : pyindex A) : pyseq A :=
  MapBidirectionalView sequence cm (unary g)
    [FilterBidirectionalView cf p (Native items) fb (fi (length items))]
    mb me.

Lemma py_ne_map_filter (k l : nat) :
  py_ne (mi k) (mi l) = Ok (negb (Nat.eqb k l)).
Proof.
  unfold py_ne, py_eq, mi, fi. cbn [index_eqb bind].
  rewrite !Nat.eqb_refl. cbn [andb]. rewrite andb_true_r. do 2 f_equal.
  destruct (Z.eqb_spec (Z.of_nat k) (Z.of_nat l)), (Nat.eqb_spec k l);
    trivial; lia.
Qed.

Lemma getitem_map_filter (generator_stop : bool) (fb mb me : pyindex A)
    (k : nat) :
  getitem generator_stop (view fb mb me) (mi k)
  = match nth_error items k with
    | Some x => Ok (g x)
    | None => Raise IndexError
    end.
Proof.
  unfold view, mi, fi. cbn [getitem]. rewrite list_getitem_nat.
  now destruct (nth_error items k).
Qed.

Lemma succ_map_filter (generator_stop : bool) (fuel k : nat) :
  succ generator_stop (S (S fuel)) (mi k)
  = match Filter_succ_loop generator_stop fuel cf p (Native items)
            (Int (Z.of_nat k)) with
    | Ok j => Ok (MapIndex cm [j])
    | Raise AttributeError => Raise TypeError
    | r => r
    end.
Proof.
  unfold mi, fi. cbn [succ list_comp].
  now destruct (Filter_succ_loop generator_stop fuel cf p (Native items)
                  (Int (Z.of_nat k))) as [j|[]|].
Qed.

Lemma pred_map_filter (generator_stop : bool) (fuel k : nat) :
  pred generator_stop (S (S fuel)) (mi k)
  = match Filter_pred_loop generator_stop fuel cf p (Native items)
            (Int (Z.of_nat k)) with
    | Ok j => Ok (MapIndex cm [j])
    | Raise AttributeError => Raise TypeError
    | r => r
    end.
Proof.
  unfold mi, fi. cbn [pred list_comp].
  now destruct (Filter_pred_loop generator_stop fuel cf p (Native items)
                  (Int (Z.of_nat k))) as [j|[]|].
Qed.

Lemma iter_loop_map_filter (fb mb me : pyindex A) (n k fuel : nat) (x : A) :
  nth_error items k = Some x -> p x = true ->
  (length items - k <= n)%nat ->
  (length items + 3 <= k + fuel)%nat ->
  list_ (iter_loop false fuel (view fb mb me) (mi k) (mi (length items)))
  = Ok (map g (filter p (skipn k items))).
Proof.
  revert k fuel x.
  induction n as [|n IH]; intros k fuel x Hk Px Hn Hfuel;
    assert (k < length items)%nat by (apply nth_error_Some; congruence);
    [lia|].
  destruct fuel as [|fuel]; [lia|].
  cbn [iter_loop]. rewrite py_ne_map_filter.
  destruct (Nat.eqb_spec k (length items)); [lia|]. cbn [negb].
  destruct fuel as [|[|fuel]]; try lia.
  rewrite getitem_map_filter, Hk, succ_map_filter.
  rewrite (skipn_nth_error _ _ _ _ Hk). cbn [filter]. rewrite Px.
  destruct (Filter_succ_loop_native p items cf false fuel k)
    as [[-> ->] | (k' & y & Hlt & Hy & Py & -> & -> & _)]; try lia.
  - reflexivity.
  - cbn [list_ map].
    assert (k' < length items)%nat by (apply nth_error_Some; congruence).
    fold (fi k'). fold (mi k').
    rewrite (IH k' (S (S fuel)) y); trivial; try lia.
Qed.

Lemma reversed_loop_map_filter (fb mb me : pyindex A)
    (generator_stop : bool) (b : nat) (xb : A) (n k fuel : nat) :
  nth_error items b = Some xb -> p xb = true ->
  filter p (firstn b items) = [] ->
  (b <= k)%nat -> (k <= n)%nat -> (k <= length items)%nat ->
  (k + 3 <= fuel)%nat ->
  list_ (reversed_loop generator_stop fuel (view fb mb me) (mi b) (mi k))
  = Ok (rev (map g (filter p (firstn k items)))).
Proof.
  intros Hb Pb Hfirst. revert k fuel.
  induction n as [|n IH]; intros k fuel Hbk Hn Hlen Hfuel.
  - assert (k = 0 /\ b = 0)%nat as [-> ->] by lia.
    destruct fuel as [|fuel]; [lia|].
    cbn [reversed_loop]. rewrite py_ne_map_filter. reflexivity.
  - destruct fuel as [|fuel]; [lia|].
    cbn [reversed_loop]. rewrite py_ne_map_filter.
    destruct (Nat.eqb_spec k b) as [->|Hne]; cbn [negb].
    + now rewrite Hfirst.
    + destruct fuel as [|[|fuel]]; try lia. rewrite pred_map_filter.
      destruct (Filter_pred_loop_native p items cf generator_stop fuel k)
        as (k' & x & Hlt & Hx & Px & -> & ->); try lia.
      { exists b, xb. repeat split; trivial. lia. }
      fold (fi k'). fold (mi k').
      rewrite getitem_map_filter, Hx. cbn [list_].
      rewrite (IH k' (S (S fuel))); try lia.
      * cbn [bind]. now rewrite map_app, rev_app_distr.
      * now apply (first_passing p items b k' x).
Qed.

End MapOverFilter.

Section MapOverFilterView.

Context {A : Type}.

(** X16: a map view over the filter view of a native sequence with a
    passing item is bidirectional only; its forward iteration yields
    the function applied to the passing items, in order, and its
    backward iteration the same list reversed. *)
Theorem smap_of_sfilter (g : A -> A) (p : A -> bool) (items : list A)
    (generator_stop : bool) (st fuel : nat) :
  existsb p items = true ->
  (length items + 3 <= fuel)%nat ->
  exists fv mv,
    sfilter generator_stop fuel p (Native items) st = (Ok fv, S st) /\
    smap (unary g) [fv] (S st) = (Ok mv, S (S st)) /\
    is_Sequence mv = false /\
    list_ (__iter__ false fuel mv) = Ok (map g (filter p items)) /\
    list_ (__reversed__ generator_stop fuel mv)
    = Ok (rev (map g (filter p items))).
Proof.
  intros Hex Hfuel.
  destruct (sfilter_first_match generator_stop p items st fuel Hex)
    as (b & xb & Hb & Pb & Hfirst & ->); [lia|].
  do 2 eexists. split; [reflexivity|]. split; [reflexivity|].
  split; [reflexivity|].
  unfold __iter__, __reversed__. cbn [__begin__ __end__].
  assert (b < length items)%nat by (apply nth_error_Some; congruence).
  split.
  - etransitivity.
    { apply (iter_loop_map_filter g p items false st (S st) _ _ _
               (length items) b fuel xb); trivial; lia. }
    rewrite <- (firstn_skipn b items) at 2.
    now rewrite filter_app, Hfirst.
  - etransitivity.
    { apply (reversed_loop_map_filter g p items false st (S st) _ _ _
               generator_stop b xb (length items) (length items) fuel);
        trivial; lia. }
    now rewrite firstn_all.
Qed.

End MapOverFilterView.

(** ** A [StopIteration] raised by a source of a map view *)

Section SourceRaises.

Context {A : Type}.

(** X17: a [StopIteration] raised by a source of a map view, while
    [__getitem__] collects the arguments of the call, ends the generator
    expression that collects them: the function is called with the items
    of the sources before that one only, and what it returns is the item
    of the view; under [generator_stop] [__getitem__] raises
    [RuntimeError] instead. *)
Theorem StopIteration_of_a_source (generator_stop sequence : bool)
    (cls c : nat) (func : list A -> outcome A)
    (before : list (pyseq A * pyindex A * A)) (s : pyseq A) (j : pyindex A)
    (after : list (pyseq A)) (js : list (pyindex A))
    (begin_ end_ : pyindex A) :
  Forall (fun t => getitem generator_stop (fst (fst t)) (snd (fst t))
                   = Ok (snd t)) before ->
  getitem generator_stop s j = Raise StopIteration ->
  getitem generator_stop
    (MapBidirectionalView sequence cls func
       (map (fun t => fst (fst t)) before ++ s :: after) begin_ end_)
    (MapIndex c (map (fun t => snd (fst t)) before ++ j :: js))
  = if generator_stop then Raise RuntimeError else func (map snd before).
Proof.
  intros Hbefore Hs. cbn [getitem].
  match goal with
  | |- bind ?g _ = _ =>
      assert (E : g = if generator_stop then Raise RuntimeError
                      else Ok (map snd before))
  end.
  { induction Hbefore as [|[[s' j'] x] before Hx _ IH]; cbn [map app].
    - rewrite Hs. now destruct generator_stop.
    - cbn [fst snd] in Hx |- *. rewrite Hx. cbn [list_]. rewrite IH.
      now destruct generator_stop. }
  rewrite E. now destruct generator_stop.
Qed.

End SourceRaises.

(** ** An exception raised by the mapped function *)

Section FunctionRaises.

Context {A : Type}.

Variables (func : list A -> outcome A) (g : list A -> A).
Variables (l0 : list A) (ls0 : list (list A)) (k : nat) (r : list A).
Variable e : exn.

Let ls : list (list A) := l0 :: ls0.

(** the function returns on the rows before [k] and raises on row [k] *)
Hypothesis Hbefore :
  forall j rj, (j < k)%nat -> row j ls = Some rj -> func rj = Ok (g rj).
Hypothesis Hrow : row k ls = Some r.
Hypothesis Hraise : func r = Raise e.

(** How [list] ends after the items [l], when [e] is raised in the loop
    of [__iter__]. *)
Let ending (generator_stop : bool) (l : list A) : outcome (list A) :=
  match e with
  | IndexError | StopIteration =>
      if generator_stop then Raise RuntimeError else Ok l
  | _ => Raise e
  end.

Lemma row_defined_below (j : nat) : (j <= k)%nat -> row j ls <> None.
Proof.
  intros Hj Hn.
  assert (N : forall d, row (j + d) ls = None).
  { induction d as [|d IHd].
    - now rewrite Nat.add_0_r.
    - rewrite Nat.add_succ_r. now apply row_downward. }
  specialize (N (k - j)%nat). replace (j + (k - j))%nat with k in N by lia.
  congruence.
Qed.

Lemma iter_loop_function_raises (generator_stop sequence : bool)
    (cls : nat) (begin_ end_ : pyindex A) (d j fuel : nat) :
  (j + d = k)%nat -> (d < fuel)%nat ->
  list_ (iter_loop generator_stop fuel
           (MapBidirectionalView sequence cls func (map Native ls)
              begin_ end_)
           (MapIndex cls (map (fun _ => Int (Z.of_nat j)) ls))
           (MapIndex cls (map (fun l => Int (Z.of_nat (length l))) ls)))
  = ending generator_stop (map g (rows_from d j ls)).
Proof.
  assert (Hk : forall j, (j <= k)%nat -> (j < length l0)%nat).
  { intros i Hi. pose proof (row_defined_below i Hi) as Hd.
    destruct (Nat.lt_ge_cases i (length l0)); trivial.
    elim Hd. now apply row_cons_None. }
  revert j fuel. induction d as [|d IH]; intros j [|fuel] Hj Hfuel; try lia;
    cbn [iter_loop rows_from];
    rewrite (py_ne_mapN_end_lt ls cls l0 ls0 eq_refl) by (apply Hk; lia);
    rewrite getitem_mapN.
  - rewrite Nat.add_0_r in Hj. subst j. rewrite Hrow, Hraise.
    subst ending. now destruct e, generator_stop.
  - destruct (row j ls) as [rj|] eqn:E.
    2: { now elim (row_defined_below j); [lia|]. }
    rewrite (Hbefore j rj) by (trivial; lia).
    destruct fuel as [|fuel]; [lia|].
    rewrite (succ_mapN ls cls generator_stop fuel (fun _ => j)).
    cbn [list_ map].
    rewrite IH by lia. subst ending. cbn beta.
    now destruct e, generator_stop.
Qed.

(** X18: when the mapped function raises at row [k], having returned on
    the rows before, the forward iteration of the view over native
    sequences yields the results for those rows; an [IndexError] (or
    [StopIteration]) of the function then ends the iteration as the end of
    a source does, silently without [generator_stop] and as a
    [RuntimeError] with it, and any other exception leaves [list]
    unchanged. *)
Theorem function_raises (generator_stop : bool) (st fuel : nat) :
  (k < fuel)%nat ->
  exists v,
    smap func (map Native ls) st = (Ok v, S st) /\
    list_ (__iter__ generator_stop fuel v)
    = match e with
      | IndexError | StopIteration =>
          if generator_stop then Raise RuntimeError
          else Ok (map g (rows_from k 0 ls))
      | _ => Raise e
      end.
Proof.
  intros Hfuel. eexists. split; [apply smap_natives|].
  unfold __iter__. cbn [__begin__ __end__].
  exact (iter_loop_function_raises generator_stop true st _ _ k 0 fuel
           eq_refl Hfuel).
Qed.

End FunctionRaises.

(** ** Iterations that end by an [IndexError], under [generator_stop] *)

Section EndsByIndexError.

Context {A : Type}.

(** The items that the loop of [__iter__] yields, however it ends. *)
Lemma yielded_iter_loop_filter (generator_stop : bool) (p : A -> bool)
    (items : list A) (cls : nat) (begin_ : pyindex A) (n k fuel : nat)
    (x : A) :
  nth_error items k = Some x -> p x = true ->
  (length items - k <= n)%nat ->
  (length items - k + 2 <= fuel)%nat ->
  yielded
    (iter_loop generator_stop fuel
       (FilterBidirectionalView cls p (Native items) begin_
          (FilterIndex cls p (Native items)
             (Int (Z.of_nat (length items)))))
       (FilterIndex cls p (Native items) (Int (Z.of_nat k)))
       (FilterIndex cls p (Native items) (Int (Z.of_nat (length items)))))
  = filter p (skipn k items).
Proof.
  revert k fuel x.
  induction n as [|n IH]; intros k fuel x Hk Px Hn Hfuel;
    assert (k < length items)%nat by (apply nth_error_Some; congruence);
    [lia|].
  destruct fuel as [|fuel]; [lia|].
  cbn [iter_loop]. rewrite py_ne_filter.
  destruct (Nat.eqb_spec k (length items)); [lia|]. cbn [negb].
  cbn [getitem]. rewrite list_getitem_nat, Hk.
  destruct fuel as [|fuel]; [lia|].
  rewrite succ_filter.
  rewrite (skipn_nth_error _ _ _ _ Hk). cbn [filter yielded]. rewrite Px.
  f_equal.
  destruct (Filter_succ_loop_native p items cls generator_stop fuel k)
    as [[-> ->] | (k' & y & Hlt & Hy & Py & -> & -> & _)]; try lia.
  - apply yielded_iter_handler.
  - cbn [no_method try_except].
    assert (k' < length items)%nat by (apply nth_error_Some; congruence).
    apply (IH k' (S fuel) y); trivial; lia.
Qed.

(** X19: under [generator_stop] the forward iteration of the filter view
    of a native sequence still yields the passing items, in order, and
    then always raises [RuntimeError]: such an iteration never ends by
    reaching [end]. *)
Theorem filter_view_generator_stop (p : A -> bool) (items : list A)
    (st fuel : nat) :
  existsb p items = true ->
  (length items + 2 <= fuel)%nat ->
  exists v,
    sfilter true fuel p (Native items) st = (Ok v, S st) /\
    yielded (__iter__ true fuel v) = filter p items /\
    list_ (__iter__ true fuel v) = Raise RuntimeError.
Proof.
  intros Hex Hfuel.
  destruct (sfilter_first_match true p items st fuel Hex Hfuel)
    as (b & xb & Hb & Pb & Hfirst & ->).
  eexists. split; [reflexivity|].
  unfold __iter__. cbn [__begin__ __end__].
  assert (b < length items)%nat by (apply nth_error_Some; congruence).
  split.
  - rewrite (yielded_iter_loop_filter true p items st _ (length items)
               b fuel xb); trivial; try lia.
    rewrite <- (firstn_skipn b items) at 2.
    now rewrite filter_app, Hfirst.
  - apply (iter_loop_filter_generator_stop p items st _ (length items)
             b fuel xb); trivial; lia.
Qed.

(** X20: under [generator_stop] the forward iteration of the map view of
    two native sequences of different lengths still yields
    [f(a[i], b[i])] up to the shorter length, and then raises
    [RuntimeError]. *)
Theorem ragged_map_generator_stop (f : A -> A -> A) (a b : list A)
    (st fuel : nat) :
  length a <> length b ->
  (Nat.min (length a) (length b) < fuel)%nat ->
  exists v,
    smap (binary f) [Native a; Native b] st = (Ok v, S st) /\
    yielded (__iter__ true fuel v) = elementwise f a b /\
    list_ (__iter__ true fuel v) = Raise RuntimeError.
Proof.
  intros Hne Hfuel. eexists. split; [apply smap_native2|].
  unfold __iter__. cbn [__begin__ __end__].
  change (Int (A:=A) 0) with (Int (A:=A) (Z.of_nat 0)).
  split.
  - now rewrite (yielded_iter_loop_map2 f a b true st _ _ true
                   (Nat.min (length a) (length b)) 0 fuel).
  - now apply (iter_loop_map2_generator_stop f a b true st _ _
                 (Nat.min (length a) (length b)) 0 fuel).
Qed.

End EndsByIndexError.

(** * The further properties at concrete inputs *)

Lemma index_eq_trans_witness :
  py_eq map_index0 (MapIndex 0 [Int 0]) = Ok true /\
  py_eq (MapIndex 0 [Int 0]) map_index0 = Ok true /\
  py_eq map_index0 map_index0 = Ok true.
Proof.
  assert (H : py_eq map_index0 (MapIndex 0 [Int 0]) = Ok true)
    by reflexivity.
  assert (H' : py_eq (MapIndex 0 [Int 0]) map_index0 = Ok true)
    by reflexivity.
  split; [exact H|]. split; [exact H'|].
  exact (index_eq_trans map_index0 (MapIndex 0 [Int 0]) map_index0 H H').
Defined.

Lemma stepping_keeps_view_witness :
  index_of sums1 (MapIndex 0 [Int 0; Int 0]) /\
  (succ false 1 (MapIndex (A:=Z) 0 [Int 0; Int 0])
   = Ok (MapIndex 0 [Int 1; Int 1])
   \/ pred false 1 (MapIndex (A:=Z) 0 [Int 0; Int 0])
      = Ok (MapIndex 0 [Int 1; Int 1])) /\
  index_of sums1 (MapIndex 0 [Int 1; Int 1]).
Proof.
  assert (H : index_of sums1 (MapIndex 0 [Int 0; Int 0])) by reflexivity.
  assert (H' : succ false 1 (MapIndex (A:=Z) 0 [Int 0; Int 0])
               = Ok (MapIndex 0 [Int 1; Int 1])
               \/ pred false 1 (MapIndex (A:=Z) 0 [Int 0; Int 0])
                  = Ok (MapIndex 0 [Int 1; Int 1]))
    by (left; reflexivity).
  split; [exact H|]. split; [exact H'|].
  exact (stepping_keeps_view false 1 sums1 _ _ H H').
Defined.


Lemma MapBidirectionalView_of_iterator_witness :
  forallb is_BidirectionalSequence [s1; Iterator [0]] = false /\
  MapBidirectionalView__init__ false (binary Z.add) [s1; Iterator [0]] 0%nat
  = (Raise AttributeError, 1%nat).
Proof.
  split; [reflexivity|].
  apply (MapBidirectionalView_of_iterator false (binary Z.add)
           [s1; Iterator [0]] 0).
  reflexivity.
Defined.

Lemma sfilter_not_random_access_witness :
  sfilter false 5 is_odd s1 0%nat = (Ok odds, 1%nat) /\
  is_Sequence odds = false /\
  len odds = Raise TypeError /\
  (getitem false odds (Int 0) = Raise AttributeError \/
   getitem false odds (Int 0) = Raise TypeError).
Proof.
  assert (H : sfilter false 5 is_odd s1 0%nat = (Ok odds, 1%nat))
    by reflexivity.
  split; [exact H|].
  exact (sfilter_not_random_access false 5 is_odd s1 0 1 odds 0 H).
Defined.

Lemma MapView_integer_index_witness :
  (length [0; 1; 2; 3] = length [10; 20; 30; 40] \/ 0 <= -1) /\
  exists v,
    smap (binary Z.add) [Native [0; 1; 2; 3]; Native [10; 20; 30; 40]] 0%nat
    = (Ok v, 1%nat) /\
    getitem false v (Int (-1))
    = list_getitem (elementwise Z.add [0; 1; 2; 3] [10; 20; 30; 40]) (-1).
Proof.
  assert (H : length [0; 1; 2; 3] = length [10; 20; 30; 40] \/ 0 <= -1)
    by (left; reflexivity).
  split; [exact H|].
  exact (MapView_integer_index Z.add [0; 1; 2; 3] [10; 20; 30; 40] false 0 (-1)
           H).
Defined.

Lemma reversed_of_ragged_raises_witness :
  length [0; 1; 2; 3] <> length [10] /\
  (Nat.min (length [0; 1; 2; 3]) (length [10]) + 1 < 3)%nat /\
  exists v,
    smap (binary Z.add) [Native [0; 1; 2; 3]; Native [10]] 0%nat
    = (Ok v, 1%nat) /\
    list_ (__reversed__ false 3 v) = Raise ValueError.
Proof.
  assert (H : length [0; 1; 2; 3] <> length [10]) by discriminate.
  assert (H' : (Nat.min (length [0; 1; 2; 3]) (length [10]) + 1 < 3)%nat)
    by (simpl; lia).
  split; [exact H|]. split; [exact H'|].
  exact (reversed_of_ragged_raises Z.add [0; 1; 2; 3] [10] false 0 3 H H').
Defined.


Lemma contains_stops_at_first_witness :
  existsb (fun member => member =? 10)
    (yielded (__iter__ true 3
                (view_of (smap (binary Z.add) [s1; Native [10]] 0%nat))))
  = true /\
  list_ (__iter__ true 3
           (view_of (smap (binary Z.add) [s1; Native [10]] 0%nat)))
  = Raise RuntimeError /\
  __contains__ Z.eqb true 3
    (view_of (smap (binary Z.add) [s1; Native [10]] 0%nat)) 10
  = Ok true.
Proof.
  split; [reflexivity|]. split; [reflexivity|].
  apply (contains_stops_at_first Z.eqb true 3
           (view_of (smap (binary Z.add) [s1; Native [10]] 0%nat)) 10).
  reflexivity.
Defined.

Lemma sfilter_begins_at_first_witness :
  existsb is_odd [0; 1; 2; 3] = true /\
  (length [0; 1; 2; 3] + 2 <= 6)%nat /\
  exists v b x,
    sfilter false 6 is_odd (Native [0; 1; 2; 3]) 0%nat = (Ok v, 1%nat) /\
    begin v = Ok b /\
    getitem false v b = Ok x /\
    find is_odd [0; 1; 2; 3] = Some x.
Proof.
  split; [reflexivity|]. split; [simpl; lia|].
  apply (sfilter_begins_at_first is_odd [0; 1; 2; 3] false 0 6).
  - reflexivity.
  - simpl; lia.
Defined.

Lemma FilterIndex_succ_pred_witness :
  nth_error [0; 1; 2; 3] 1 = Some 1 /\
  is_odd 1 = true /\
  existsb is_odd (skipn 2 [0; 1; 2; 3]) = true /\
  (length [0; 1; 2; 3] < 5)%nat /\
  exists k' y,
    (1 < k')%nat /\ nth_error [0; 1; 2; 3] k' = Some y /\
    is_odd y = true /\
    succ false 5 (FilterIndex 0 is_odd (Native [0; 1; 2; 3]) (Int (Z.of_nat 1)))
    = Ok (FilterIndex 0 is_odd (Native [0; 1; 2; 3]) (Int (Z.of_nat k'))) /\
    pred false 5
      (FilterIndex 0 is_odd (Native [0; 1; 2; 3]) (Int (Z.of_nat k')))
    = Ok (FilterIndex 0 is_odd (Native [0; 1; 2; 3]) (Int (Z.of_nat 1))).
Proof.
  split; [reflexivity|]. split; [reflexivity|]. split; [reflexivity|].
  split; [simpl; lia|].
  apply (FilterIndex_succ_pred is_odd [0; 1; 2; 3] false 0 5 1 1).
  - reflexivity.
  - reflexivity.
  - reflexivity.
  - simpl; lia.
Defined.

Lemma smap_of_native_sequences_witness :
  (length [0; 1; 2; 3] < 5)%nat /\
  exists v,
    smap (fun r => Ok (fold_right Z.add 0 r))
      (map Native ([0; 1; 2; 3] :: [[10; 20; 30]; [100; 200; 300; 400]]))
      0%nat
    = (Ok v, 1%nat) /\
    list_ (__iter__ false 5 v)
    = Ok (map (fold_right Z.add 0)
            (rows ([0; 1; 2; 3] :: [[10; 20; 30]; [100; 200; 300; 400]]))) /\
    (Forall (fun l => length l = length [0; 1; 2; 3])
       [[10; 20; 30]; [100; 200; 300; 400]] ->
     forall generator_stop,
       list_ (__iter__ generator_stop 5 v)
       = Ok (map (fold_right Z.add 0)
               (rows ([0; 1; 2; 3]
                      :: [[10; 20; 30]; [100; 200; 300; 400]]))) /\
       list_ (__reversed__ generator_stop 5 v)
       = Ok (rev (map (fold_right Z.add 0)
                    (rows ([0; 1; 2; 3]
                           :: [[10; 20; 30]; [100; 200; 300; 400]]))))) /\
    (forall k,
       nth_error
         (rows ([0; 1; 2; 3] :: [[10; 20; 30]; [100; 200; 300; 400]])) k
       = row k ([0; 1; 2; 3] :: [[10; 20; 30]; [100; 200; 300; 400]])).
Proof.
  split; [simpl; lia|].
  apply (smap_of_native_sequences (fold_right Z.add 0) [0; 1; 2; 3]
           [[10; 20; 30]; [100; 200; 300; 400]] 0 5).
  simpl; lia.
Defined.

Lemma sfilter_of_smap_witness :
  Forall (fun l => length l = length [0; 1; 2; 3]) [[10; 20; 30; 40]] /\
  (length [0; 1; 2; 3] + 3 <= 7)%nat /\
  exists mv,
    smap (fun r => Ok (fold_right Z.add 0 r))
      (map Native ([0; 1; 2; 3] :: [[10; 20; 30; 40]])) 0%nat
    = (Ok mv, 1%nat) /\
    exists fv,
      sfilter false 7 is_odd mv 1%nat = (Ok fv, 2%nat) /\
      list_ (__iter__ false 7 fv) = Ok [21; 43] /\
      list_ (__reversed__ false 7 fv) = Ok [43; 21].
Proof.
  assert (H : Forall (fun l => length l = length [0; 1; 2; 3])
                [[10; 20; 30; 40]])
    by (repeat constructor).
  assert (H' : (length [0; 1; 2; 3] + 3 <= 7)%nat) by (simpl; lia).
  split; [exact H|]. split; [exact H'|].
  exact (sfilter_of_smap (fold_right Z.add 0) is_odd [0; 1; 2; 3]
           [[10; 20; 30; 40]] false 0 7 H H').
Defined.

Lemma smap_of_sfilter_witness :
  existsb is_odd [0; 1; 2; 3] = true /\
  (length [0; 1; 2; 3] + 3 <= 7)%nat /\
  exists fv mv,
    sfilter false 7 is_odd (Native [0; 1; 2; 3]) 0%nat = (Ok fv, 1%nat) /\
    smap (unary double) [fv] 1%nat = (Ok mv, 2%nat) /\
    is_Sequence mv = false /\
    list_ (__iter__ false 7 mv) = Ok (map double (filter is_odd [0; 1; 2; 3])) /\
    list_ (__reversed__ false 7 mv)
    = Ok (rev (map double (filter is_odd [0; 1; 2; 3]))).
Proof.
  split; [reflexivity|]. split; [simpl; lia|].
  apply (smap_of_sfilter double is_odd [0; 1; 2; 3] false 0 7).
  - reflexivity.
  - simpl; lia.
Defined.

Lemma StopIteration_of_a_source_witness :
  Forall (fun t => getitem false (fst (fst t)) (snd (fst t)) = Ok (snd t))
    [(s1, Int 1, 1)] /\
  getitem false stopping (MapIndex 0 [Int 1]) = Raise StopIteration /\
  getitem false sums_over_stopping
    (MapIndex 1 [Int 1; MapIndex 0 [Int 1]; Int 1])
  = Ok 1.
Proof.
  assert (H : Forall (fun t => getitem false (fst (fst t)) (snd (fst t))
                               = Ok (snd t)) [(s1, Int 1, 1)])
    by (repeat constructor).
  assert (H' : getitem false stopping (MapIndex 0 [Int 1])
               = Raise StopIteration) by reflexivity.
  split; [exact H|]. split; [exact H'|].
  exact (StopIteration_of_a_source false true 1 1 sum_row [(s1, Int 1, 1)]
           stopping (MapIndex 0 [Int 1]) [s1] [Int 1]
           (MapIndex 1 [Int 0; MapIndex 0 [Int 0]; Int 0])
           (MapIndex 1 [Int 4; MapIndex 0 [Int 4]; Int 4]) H H').
Defined.

Lemma function_raises_witness :
  (forall j rj, (j < 2)%nat -> row j ([0; 1; 2; 3] :: []) = Some rj ->
     halts_at_two rj = Ok (double_row rj)) /\
  row 2 ([0; 1; 2; 3] :: []) = Some [2] /\
  halts_at_two [2] = Raise IndexError /\
  (2 < 4)%nat /\
  exists v,
    smap halts_at_two (map Native ([0; 1; 2; 3] :: [])) 0%nat
    = (Ok v, 1%nat) /\
    list_ (__iter__ false 4 v)
    = Ok (map double_row (rows_from 2 0 ([0; 1; 2; 3] :: []))).
Proof.
  assert (H : forall j rj, (j < 2)%nat ->
                row j ([0; 1; 2; 3] :: []) = Some rj ->
                halts_at_two rj = Ok (double_row rj)).
  { intros [|[|j]] rj Hj; [| |lia]; intros [= <-]; reflexivity. }
  assert (H' : (2 < 4)%nat) by lia.
  split; [exact H|]. split; [reflexivity|]. split; [reflexivity|].
  split; [exact H'|].
  exact (function_raises halts_at_two double_row [0; 1; 2; 3] [] 2 [2]
           IndexError H eq_refl eq_refl false 0 4 H').
Defined.

Lemma filter_view_generator_stop_witness :
  existsb is_odd [0; 1; 2; 3] = true /\
  (length [0; 1; 2; 3] + 2 <= 6)%nat /\
  exists v,
    sfilter true 6 is_odd (Native [0; 1; 2; 3]) 0%nat = (Ok v, 1%nat) /\
    yielded (__iter__ true 6 v) = filter is_odd [0; 1; 2; 3] /\
    list_ (__iter__ true 6 v) = Raise RuntimeError.
Proof.
  split; [reflexivity|]. split; [simpl; lia|].
  apply (filter_view_generator_stop is_odd [0; 1; 2; 3] 0 6).
  - reflexivity.
  - simpl; lia.
Defined.

Lemma ragged_map_generator_stop_witness :
  length [0; 1; 2; 3] <> length [10] /\
  (Nat.min (length [0; 1; 2; 3]) (length [10]) < 3)%nat /\
  exists v,
    smap (binary Z.add) [Native [0; 1; 2; 3]; Native [10]] 0%nat
    = (Ok v, 1%nat) /\
    yielded (__iter__ true 3 v) = elementwise Z.add [0; 1; 2; 3] [10] /\
    list_ (__iter__ true 3 v) = Raise RuntimeError.
Proof.
  assert (H : length [0; 1; 2; 3] <> length [10]) by discriminate.
  assert (H' : (Nat.min (length [0; 1; 2; 3]) (length [10]) < 3)%nat)
    by (simpl; lia).
  split; [exact H|]. split; [exact H'|].
  exact (ragged_map_generator_stop Z.add [0; 1; 2; 3] [10] 0 3 H H').
Defined.
